(** * Tuya climate adapter: a shallow embedding of
      [homeassistant/components/tuya/climate.py]

    The adapter reads key/value data points from a device object owned by
    the vendor SDK and submits command batches through the same SDK.  The
    embedding follows the Python source method by method:

    - dictionaries ([device.status], [device.function], the process-wide
      [TUYA_HVAC_TO_HA] table, [_hvac_to_tuya], [kwargs]) are finite maps;
    - the entity is a record of the attributes [__init__] assigns;
    - getters are functions of the entity (which carries its device) and
      of the current value of the global table; a getter that can raise
      returns a [Result];
    - setters run in a small state-and-exception monad whose state is the
      entity together with the list of batches handed to the transport.

    The floats of the read path (the results of [/] and the argument of
    [round]) are IEEE 754 binary64 numbers with their rounding, their
    infinities and the exceptions Python raises for them.  The bounds
    [__init__] derives from a declaration and the temperature handed to
    [set_temperature] are exact rationals ([Qc]); no property below
    states their value. *)

From Stdlib Require Import ZArith QArith Qcanon Qround Qpower String Ascii List Lia.
From Stdlib Require Import SpecFloat.
From stdpp Require Import base option list gmap strings.

Local Open Scope string_scope.
Local Open Scope list_scope.
Local Open Scope Z_scope.

(** ** Host framework vocabulary ([homeassistant.components.climate]) *)

Module HVACMode.
Inductive t : Set :=
| OFF | HEAT | COOL | HEAT_COOL | AUTO | DRY | FAN_ONLY.

Definition to_nat (m : t) : nat :=
  match m with
  | OFF => 0 | HEAT => 1 | COOL => 2 | HEAT_COOL => 3
  | AUTO => 4 | DRY => 5 | FAN_ONLY => 6
  end%nat.

Definition of_nat (n : nat) : option t :=
  match n with
  | 0 => Some OFF | 1 => Some HEAT | 2 => Some COOL | 3 => Some HEAT_COOL
  | 4 => Some AUTO | 5 => Some DRY | 6 => Some FAN_ONLY
  | _ => None
  end%nat.

#[global] Instance eq_dec : EqDecision t.
Proof. solve_decision. Defined.

#[global] Instance countable : Countable t.
Proof.
  apply (inj_countable to_nat of_nat).
  intros []; reflexivity.
Defined.

(** [hvac_mode != HVACMode.OFF] *)
Definition neqb_OFF (m : t) : bool :=
  match m with OFF => false | _ => true end.
End HVACMode.

Definition PRESET_ECO : string := "eco".
Definition PRESET_NONE : string := "none".
Definition SWING_BOTH : string := "both".
Definition SWING_HORIZONTAL : string := "horizontal".
Definition SWING_OFF : string := "off".
Definition SWING_ON : string := "on".
Definition SWING_VERTICAL : string := "vertical".

Inductive TemperatureUnit : Set := TEMP_CELSIUS | TEMP_FAHRENHEIT.

#[export] Instance TemperatureUnit_eq_dec : EqDecision TemperatureUnit.
Proof. solve_decision. Defined.

(** [ClimateEntityFeature] is an [IntFlag]; [|=] is bitwise or. *)
Module ClimateEntityFeature.
Definition TARGET_TEMPERATURE : Z := 1.
Definition TARGET_HUMIDITY : Z := 4.
Definition FAN_MODE : Z := 8.
Definition PRESET_MODE : Z := 16.
Definition SWING_MODE : Z := 32.
End ClimateEntityFeature.

(** ** Vendor vocabulary ([.const], [tuya_iot]) *)

(** [DPCode] is a string enumeration: a member is used wherever a
    dictionary key is expected.  Modelled from the spec: the module
    [.const] that declares the members is not part of the sources; the
    identifiers are the data-point names the spec uses ([temp_set],
    [temp_set_f], [switch], ...). *)
Module DPCode.
Definition C_F : string := "c_f".
Definition ECO : string := "eco".
Definition FAN_SPEED_ENUM : string := "fan_speed_enum".
Definition HUMIDITY_CURRENT : string := "humidity_current".
Definition HUMIDITY_SET : string := "humidity_set".
Definition MODE : string := "mode".
Definition SHAKE : string := "shake".
Definition SWING : string := "swing".
Definition SWITCH : string := "switch".
Definition SWITCH_HORIZONTAL : string := "switch_horizontal".
Definition SWITCH_VERTICAL : string := "switch_vertical".
Definition TEMP_CURRENT : string := "temp_current".
Definition TEMP_CURRENT_F : string := "temp_current_f".
Definition TEMP_SET : string := "temp_set".
Definition TEMP_SET_F : string := "temp_set_f".
Definition TEMP_UNIT_CONVERT : string := "temp_unit_convert".
Definition UPPER_TEMP : string := "upper_temp".
Definition UPPER_TEMP_F : string := "upper_temp_f".
Definition WINDSPEED : string := "windspeed".
End DPCode.

Inductive DPType : Set :=
| DP_BOOLEAN | DP_ENUM | DP_INTEGER | DP_JSON | DP_STRING.

#[export] Instance DPType_eq_dec : EqDecision DPType.
Proof. solve_decision. Defined.

(** A Python float: a binary64 number, in the Standard Library's
    specification of floating-point arithmetic (precision 53, exponent of
    the infinities 1024). *)
#[export] Instance spec_float_eq_dec : EqDecision spec_float.
Proof. solve_decision. Defined.

(** A Python value as it occurs in the status snapshot, in a command and
    as the result of a getter.  The snapshot holds booleans, integers and
    strings; floats arise from true division. *)
Inductive Value : Set :=
| VBool (b : bool)
| VInt (z : Z)
| VFloat (f : spec_float)
| VStr (s : string).

#[export] Instance Value_eq_dec : EqDecision Value.
Proof. solve_decision. Defined.

(** Python truthiness of a value. *)
Definition truthy (v : Value) : bool :=
  match v with
  | VBool b => b
  | VInt z => negb (z =? 0)
  | VFloat f => negb (SFeqb f (S754_zero false))
  | VStr s => negb (String.eqb s "")
  end.

(** Truthiness of what [dict.get(key)] returns ([None] is falsy). *)
Definition truthy_opt (o : option Value) : bool :=
  match o with
  | Some v => truthy v
  | None => false
  end.

(** The numeric reading of an operand of [/]: an [int] ([bool] is a
    subclass of [int]) or a float; a string is not a number. *)
Inductive Number : Set :=
| NInt (z : Z)
| NFloat (f : spec_float).

Definition as_number (v : Value) : option Number :=
  match v with
  | VBool b => Some (NInt (if b then 1 else 0))
  | VInt z => Some (NInt z)
  | VFloat f => Some (NFloat f)
  | VStr _ => None
  end.

(** The raw value is an [int]: what the vendor sends for an integer
    data point. *)
Definition is_int (v : Value) : bool :=
  match v with
  | VBool _ | VInt _ => true
  | VFloat _ | VStr _ => false
  end.

(** Declared values of a data point, already decoded from the JSON the
    SDK stores. *)
Inductive DPValues : Set :=
| IntegerValues (vmin vmax vscale vstep : Z)
| EnumValues (vrange : list string)
| NoValues.

Record DPDeclaration : Set := {
  decl_type : DPType;
  decl_values : DPValues
}.

Record TuyaDevice : Type := {
  category : string;
  name : string;
  status : gmap string Value;
  function : gmap string DPDeclaration;
  status_range : gmap string DPDeclaration
}.

(** ** Exceptions and results *)

Inductive Exc : Set :=
| RuntimeError (msg : string)
| KeyError (key : string)
| TypeError
| ZeroDivisionError
| OverflowError
| ValueError.

Inductive Result (A : Type) : Type :=
| Ok (a : A)
| Raise (e : Exc).
Arguments Ok {A} a.
Arguments Raise {A} e.

#[export] Instance Result_ret : MRet Result := fun A a => Ok a.
#[export] Instance Result_bind : MBind Result := fun A B k r =>
  match r with
  | Ok a => k a
  | Raise e => Raise e
  end.

(** [float(z)] for an [int] [z], as [/] converts an [int] operand that
    meets a float: the nearest float, ties to even; an [int] beyond the
    range of the floats raises [OverflowError]. *)
Definition float_of_Z (z : Z) : spec_float :=
  binary_normalize 53 1024 z 0 false.

Definition float_of_int (z : Z) : Result spec_float :=
  match float_of_Z z with
  | S754_infinity _ => Raise OverflowError
  | f => Ok f
  end.

(** [a / b] on two [int]s: the quotient of the integers rounded once to
    the nearest float, ties to even; a zero divisor raises
    [ZeroDivisionError] and a quotient beyond the range of the floats
    [OverflowError].  The operands are not converted first: the division
    works on their full digits. *)
Definition int_truediv (a b : Z) : Result spec_float :=
  if b =? 0 then Raise ZeroDivisionError
  else if a =? 0 then Ok (S754_zero (b <? 0))
  else
    match SFdiv 53 1024
            (S754_finite (a <? 0) (Z.to_pos (Z.abs a)) 0)
            (S754_finite (b <? 0) (Z.to_pos (Z.abs b)) 0) with
    | S754_infinity _ => Raise OverflowError
    | f => Ok f
    end.

(** [x / y] on two floats: a zero divisor raises, anything else is the
    IEEE division, whose result may be an infinity or a NaN. *)
Definition float_truediv (x y : spec_float) : Result spec_float :=
  if SFeqb y (S754_zero false) then Raise ZeroDivisionError
  else Ok (SFdiv 53 1024 x y).

Definition to_float (n : Number) : Result spec_float :=
  match n with
  | NInt z => float_of_int z
  | NFloat f => Ok f
  end.

(** [a / d]: true division, always a float.  Two [int]s divide as
    [int]s; with a float on either side both operands become floats,
    the left one first. *)
Definition truediv (a d : Value) : Result Value :=
  match as_number a, as_number d with
  | Some (NInt x), Some (NInt y) =>
      f ← int_truediv x y;
      Ok (VFloat f)
  | Some x, Some y =>
      fx ← to_float x;
      fy ← to_float y;
      f ← float_truediv fx fy;
      Ok (VFloat f)
  | _, _ => Raise TypeError
  end.

(** [round(x)] on a finite float [m * 2^e]: nearest integer, ties to
    even. *)
Definition round_dyadic (m : positive) (e : Z) : Z :=
  if 0 <=? e then Z.pos m * 2 ^ e
  else
    let d := 2 ^ (- e) in
    let q := Z.pos m / d in
    match (2 * (Z.pos m mod d) ?= d) with
    | Lt => q
    | Gt => q + 1
    | Eq => if Z.even q then q else q + 1
    end.

(** [round(x)] on a float: an infinity raises [OverflowError], a NaN
    [ValueError]. *)
Definition float_round (f : spec_float) : Result Z :=
  match f with
  | S754_zero _ => Ok 0
  | S754_infinity _ => Raise OverflowError
  | S754_nan => Raise ValueError
  | S754_finite s m e => Ok (cond_Zopp s (round_dyadic m e))
  end.

(** Nearest integer, ties to even, of an exact rational. *)
Definition round_half_even (x : Qc) : Z :=
  let f := Qfloor x in
  let r := (x - Q2Qc (inject_Z f))%Qc in
  match (r ?= Q2Qc (1 # 2))%Qc with
  | Lt => f
  | Gt => f + 1
  | Eq => if Z.even f then f else f + 1
  end.

(** [round(v)] with one argument: an [int] result. *)
Definition py_round (v : Value) : Result Value :=
  match v with
  | VBool b => Ok (VInt (if b then 1 else 0))
  | VInt z => Ok (VInt z)
  | VFloat f => z ← float_round f; Ok (VInt z)
  | VStr _ => Raise TypeError
  end.

(** [int(x)] on a float: truncation towards zero. *)
Definition py_int (x : Qc) : Z :=
  if Qle_bool 0 x then Qfloor x else Qceiling x.

(** ** [.base]: type data *)

Record IntegerTypeData : Set := {
  dpcode : string;
  min : Z;
  max : Z;
  scale : Z;
  step : Z
}.

Record EnumTypeData : Set := {
  enum_dpcode : string;
  range : list string
}.

(** [10 ** scale]: an [int] for a non-negative exponent.  For a negative
    one Python computes on floats: the exponent is converted (and raises
    beyond the range of the floats) and the result is the float nearest
    to the power, [0.0] when the power is too small (the [pow] of the C
    library is taken to round to nearest). *)
Definition pow10 (k : Z) : Result Value :=
  if 0 <=? k then Ok (VInt (10 ^ k))
  else
    _ ← float_of_int k;
    Ok (VFloat (SFdiv 53 1024 (S754_finite false 1 0)
                  (S754_finite false (Z.to_pos (10 ^ (- k))) 0))).

(** Modelled from the spec: [IntegerTypeData.scale_value] lives in [.base],
    which is not part of the sources; [scale_value(raw) = raw / 10^scale]. *)
Definition scale_value (t : IntegerTypeData) (value : Value) : Result Value :=
  d ← pow10 (scale t);
  truediv value d.

(** Modelled from the spec: the base constant of the scale-0 convention,
    read in the source as the attribute [base_value] (declared in [.base]);
    its value is 10. *)
Definition base_value (t : IntegerTypeData) : Value := VInt 10.

(** Modelled from the spec: derived attributes of [IntegerTypeData],
    [min_scaled = min_raw / 10^scale] and likewise for max and step, as
    exact rationals. *)
Definition pow10q (k : Z) : Qc := Q2Qc (Qpower (inject_Z 10) k).
Definition min_scaled (t : IntegerTypeData) : Qc :=
  (Q2Qc (inject_Z (min t)) / pow10q (scale t))%Qc.
Definition max_scaled (t : IntegerTypeData) : Qc :=
  (Q2Qc (inject_Z (max t)) / pow10q (scale t))%Qc.
Definition step_scaled (t : IntegerTypeData) : Qc :=
  (Q2Qc (inject_Z (step t)) / pow10q (scale t))%Qc.

(** ** The adapter *)

(** The process-wide translation table, as the module defines it. *)
Definition TUYA_HVAC_TO_HA : gmap string HVACMode.t :=
  <["wind" := HVACMode.FAN_ONLY]>
  (<["wet" := HVACMode.DRY]>
  (<["manual" := HVACMode.HEAT_COOL]>
  (<["hot" := HVACMode.HEAT]>
  (<["heat" := HVACMode.HEAT]>
  (<["freeze" := HVACMode.COOL]>
  (<["cold" := HVACMode.COOL]>
  (<["auto" := HVACMode.HEAT_COOL]> ∅))))))).

Record TuyaClimateEntityDescription : Set := {
  key : string;
  switch_only_hvac_mode : HVACMode.t
}.

Definition CLIMATE_DESCRIPTIONS : gmap string TuyaClimateEntityDescription :=
  <["wkf" := {| key := "wkf"; switch_only_hvac_mode := HVACMode.HEAT |}]>
  (<["wk" := {| key := "wk"; switch_only_hvac_mode := HVACMode.HEAT_COOL |}]>
  (<["rs" := {| key := "rs"; switch_only_hvac_mode := HVACMode.HEAT |}]>
  (<["qn" := {| key := "qn"; switch_only_hvac_mode := HVACMode.HEAT |}]>
  (<["kt" := {| key := "kt"; switch_only_hvac_mode := HVACMode.COOL |}]> ∅)))).

(** The methods the adapter inherits from [TuyaEntity].  The base class
    is declared in [.base], which is not part of the sources, so its
    methods are an interface: every statement about the adapter holds for
    any implementation of it.  [find_dpcode] is split by the [dptype]
    argument, as its result type is ([IntegerTypeData], [EnumTypeData] or
    the bare code); its second argument is the tuple of candidate codes
    and its third is [prefer_function]. *)
Class TuyaEntity : Type := {
  _get_right_dpcode : string -> string -> string;
  find_dpcode : TuyaDevice -> list string -> bool -> option string;
  find_dpcode_enum : TuyaDevice -> list string -> bool -> option EnumTypeData;
  find_dpcode_integer :
    TuyaDevice -> list string -> bool -> option IntegerTypeData;
  scale_value_back : IntegerTypeData -> Qc -> Z
}.

Record TuyaClimateEntity : Type := {
  device : TuyaDevice;
  entity_description : TuyaClimateEntityDescription;
  _instruction_type : string;
  _current_humidity : option IntegerTypeData;
  _current_temperature : option IntegerTypeData;
  _hvac_to_tuya : gmap HVACMode.t string;
  _set_humidity : option IntegerTypeData;
  _set_temperature : option IntegerTypeData;
  _attr_preset_mode : string;
  _attr_temperature_unit : TemperatureUnit;
  _attr_supported_features : Z;
  _attr_target_temperature_step : Qc;
  _attr_max_temp : option Qc;
  _attr_min_temp : option Qc;
  _attr_hvac_modes : list HVACMode.t;
  _attr_preset_modes : option (list string);
  _attr_min_humidity : option Z;
  _attr_max_humidity : option Z;
  _attr_fan_modes : option (list string);
  _attr_swing_modes : option (list string)
}.

(** [key in d] *)
Definition contains {A} (d : gmap string A) (k : string) : bool :=
  match d !! k with
  | Some _ => true
  | None => false
  end.

(** Truthiness of a bare code returned by [find_dpcode]. *)
Definition found (o : option string) : bool :=
  match o with
  | Some c => negb (String.eqb c "")
  | None => false
  end.

(** [str.lower()] on ASCII. *)
Definition lower_ascii (c : ascii) : ascii :=
  let n := nat_of_ascii c in
  if ((65 <=? n) && (n <=? 90))%nat then ascii_of_nat (n + 32) else c.

Fixpoint lower (s : string) : string :=
  match s with
  | EmptyString => EmptyString
  | String c s' => String (lower_ascii c) (lower s')
  end.

(** ["f" in s.lower()] *)
Definition f_in_lower (s : string) : bool :=
  match index 0 "f" (lower s) with
  | Some _ => true
  | None => false
  end.

(** One round of the loop over [enum_type.range] in [__init__]: the
    state is [_hvac_to_tuya], [_attr_hvac_modes] and
    [unknown_hvac_modes]. *)
Definition hvac_modes_step (tbl : gmap string HVACMode.t)
    (acc : gmap HVACMode.t string * list HVACMode.t * list string)
    (tuya_mode : string)
    : gmap HVACMode.t string * list HVACMode.t * list string :=
  let '(h2t, modes, unknown) := acc in
  match tbl !! tuya_mode with
  | Some ha_mode => (<[ha_mode := tuya_mode]> h2t, modes ++ [ha_mode], unknown)
  | None => (h2t, modes, unknown ++ [tuya_mode])
  end.

Definition hvac_modes_loop (tbl : gmap string HVACMode.t)
    (rng : list string)
    : gmap HVACMode.t string * list HVACMode.t * list string :=
  fold_left (hvac_modes_step tbl) rng (∅, [HVACMode.OFF], []).

(** A command of an outbound batch: [{"code": ..., "value": ...}]. *)
Record Command : Set := {
  code : string;
  value : Value
}.

(** ** Setters: state and exceptions

    A setter reads and assigns attributes of [self] and hands batches to
    the transport; it may raise.  The state is the entity and the ordered
    list of the batches submitted so far. *)
Record Sys : Type := {
  this : TuyaClimateEntity;
  sent : list (list Command)
}.

Definition Action (A : Type) : Type := Sys -> Result A * Sys.

#[export] Instance Action_ret : MRet Action := fun A a s => (Ok a, s).
#[export] Instance Action_bind : MBind Action := fun A B k m s =>
  match m s with
  | (Ok a, s') => k a s'
  | (Raise e, s') => (Raise e, s')
  end.

Definition get_self : Action TuyaClimateEntity := fun s => (Ok (this s), s).

Definition raise {A} (e : Exc) : Action A := fun s => (Raise e, s).

(** Modelled from the spec: [_send_command] is a method of the base class
    in [.base]; it submits the ordered sequence of commands to the
    transport as one batch. *)
Definition _send_command (commands : list Command) : Action unit :=
  fun s => (Ok tt, {| this := this s; sent := sent s ++ [commands] |}).

(** [self._attr_preset_mode = preset_mode] *)
Definition assign_attr_preset_mode (preset_mode : string) : Action unit :=
  fun s =>
    let e := this s in
    (Ok tt,
     {| this :=
          {| device := device e;
             entity_description := entity_description e;
             _instruction_type := _instruction_type e;
             _current_humidity := _current_humidity e;
             _current_temperature := _current_temperature e;
             _hvac_to_tuya := _hvac_to_tuya e;
             _set_humidity := _set_humidity e;
             _set_temperature := _set_temperature e;
             _attr_preset_mode := preset_mode;
             _attr_temperature_unit := _attr_temperature_unit e;
             _attr_supported_features := _attr_supported_features e;
             _attr_target_temperature_step := _attr_target_temperature_step e;
             _attr_max_temp := _attr_max_temp e;
             _attr_min_temp := _attr_min_temp e;
             _attr_hvac_modes := _attr_hvac_modes e;
             _attr_preset_modes := _attr_preset_modes e;
             _attr_min_humidity := _attr_min_humidity e;
             _attr_max_humidity := _attr_max_humidity e;
             _attr_fan_modes := _attr_fan_modes e;
             _attr_swing_modes := _attr_swing_modes e |};
        sent := sent s |}).

(** [kwargs[key]] *)
Definition getitem (kwargs : gmap string Qc) (k : string) : Action Qc :=
  match kwargs !! k with
  | Some x => mret x
  | None => raise (KeyError k)
  end.

(** [x in seq] for a sequence of strings. *)
Definition str_in (x : string) (seq : list string) : bool :=
  existsb (String.eqb x) seq.

Section Adapter.
Context `{Base : TuyaEntity}.

(** The preferred temperature unit, [None] when the device does not
    offer both. *)
Definition prefered_temperature_unit (device : TuyaDevice)
    (instruction_type : string) : option TemperatureUnit :=
  let dpcode_of := _get_right_dpcode instruction_type in
  if (contains (status device) (dpcode_of DPCode.TEMP_CURRENT)
      && contains (status device) (dpcode_of DPCode.TEMP_CURRENT_F))
     || (contains (status device) (dpcode_of DPCode.TEMP_SET)
         && contains (status device) (dpcode_of DPCode.TEMP_SET_F))
  then
    if existsb
         (fun dpcode =>
            match status device !! dpcode with
            | Some (VStr s) => f_in_lower s
            | _ => false
            end)
         [dpcode_of DPCode.C_F; dpcode_of DPCode.TEMP_UNIT_CONVERT]
    then Some TEMP_FAHRENHEIT
    else Some TEMP_CELSIUS
  else None.

(** The choice between a Fahrenheit and a Celsius binding. *)
Definition use_fahrenheit (prefered : option TemperatureUnit)
    (celsius_type farhenheit_type : option IntegerTypeData) : bool :=
  match farhenheit_type with
  | Some _ =>
      bool_decide (prefered = Some TEMP_FAHRENHEIT)
      || (bool_decide (prefered = Some TEMP_CELSIUS)
          && negb (bool_decide (is_Some celsius_type)))
  | None => false
  end.
(** [TuyaClimateEntity.__init__].  [tbl] is the value of the global
    [TUYA_HVAC_TO_HA] when the constructor runs.  The attributes the
    constructor does not assign keep the defaults of the host class: no
    supported feature, and no list of preset, fan or swing modes. *)
Definition __init__ (tbl : gmap string HVACMode.t) (device : TuyaDevice)
    (description : TuyaClimateEntityDescription)
    (instruction_type : string) : TuyaClimateEntity :=
  let dpcode_of := _get_right_dpcode instruction_type in
  let prefered := prefered_temperature_unit device instruction_type in
  (* current temperature *)
  let celsius_type :=
    find_dpcode_integer device
      [dpcode_of DPCode.TEMP_CURRENT; dpcode_of DPCode.UPPER_TEMP] false in
  let farhenheit_type :=
    find_dpcode_integer device
      [dpcode_of DPCode.TEMP_CURRENT_F; dpcode_of DPCode.UPPER_TEMP_F] false in
  let '(temperature_unit, current_temperature) :=
    if use_fahrenheit prefered celsius_type farhenheit_type
    then (TEMP_FAHRENHEIT, farhenheit_type)
    else (TEMP_CELSIUS, celsius_type) in
  (* setting temperature *)
  let celsius_type :=
    find_dpcode_integer device [dpcode_of DPCode.TEMP_SET] true in
  let farhenheit_type :=
    find_dpcode_integer device [dpcode_of DPCode.TEMP_SET_F] true in
  let set_temperature :=
    if use_fahrenheit prefered celsius_type farhenheit_type
    then farhenheit_type
    else celsius_type in
  let '(features, max_temp, min_temp, temperature_step) :=
    match set_temperature with
    | Some t =>
        (Z.lor (Z.lor 0 ClimateEntityFeature.TARGET_TEMPERATURE)
               ClimateEntityFeature.PRESET_MODE,
         Some (max_scaled t), Some (min_scaled t), step_scaled t)
    | None => (0, None, None, Q2Qc 1)
    end in
  (* HVAC modes *)
  let '(hvac_to_tuya, hvac_modes, preset_modes, features) :=
    match find_dpcode_enum device [dpcode_of DPCode.MODE] true with
    | Some enum_type =>
        let '(h2t, modes, unknown_hvac_modes) :=
          hvac_modes_loop tbl (range enum_type) in
        match unknown_hvac_modes with
        | [] => (h2t, modes, None, features)
        | _ :: _ =>
            (h2t, modes ++ [switch_only_hvac_mode description],
             Some unknown_hvac_modes,
             Z.lor features ClimateEntityFeature.PRESET_MODE)
        end
    | None =>
        if found (find_dpcode device [dpcode_of DPCode.SWITCH] true)
        then (∅, [HVACMode.OFF; switch_only_hvac_mode description],
              None, features)
        else (∅, [], None, features)
    end in
  (* humidity *)
  let '(features, set_humidity, min_humidity, max_humidity) :=
    match find_dpcode_integer device [dpcode_of DPCode.HUMIDITY_SET] true with
    | Some int_type =>
        (Z.lor features ClimateEntityFeature.TARGET_HUMIDITY,
         Some int_type,
         Some (py_int (min_scaled int_type)),
         Some (py_int (max_scaled int_type)))
    | None => (features, None, None, None)
    end in
  let current_humidity :=
    find_dpcode_integer device [dpcode_of DPCode.HUMIDITY_CURRENT] false in
  (* fan modes *)
  let '(features, fan_modes) :=
    match find_dpcode_enum device
            [dpcode_of DPCode.FAN_SPEED_ENUM; dpcode_of DPCode.WINDSPEED] true with
    | Some enum_type =>
        (Z.lor features ClimateEntityFeature.FAN_MODE,
         Some (range enum_type))
    | None => (features, None)
    end in
  (* swing modes *)
  let '(features, swing_modes) :=
    if found (find_dpcode device
                [dpcode_of DPCode.SHAKE; dpcode_of DPCode.SWING;
                 dpcode_of DPCode.SWITCH_HORIZONTAL;
                 dpcode_of DPCode.SWITCH_VERTICAL] true)
    then
      (Z.lor features ClimateEntityFeature.SWING_MODE,
       Some ([SWING_OFF]
             ++ (if found (find_dpcode device
                             [DPCode.SHAKE; DPCode.SWING] true)
                 then [SWING_ON] else [])
             ++ (if found (find_dpcode device
                             [DPCode.SWITCH_HORIZONTAL] true)
                 then [SWING_HORIZONTAL] else [])
             ++ (if found (find_dpcode device
                             [DPCode.SWITCH_VERTICAL] true)
                 then [SWING_VERTICAL] else [])))
    else (features, None) in
  {| device := device;
     entity_description := description;
     _instruction_type := instruction_type;
     _current_humidity := current_humidity;
     _current_temperature := current_temperature;
     _hvac_to_tuya := hvac_to_tuya;
     _set_humidity := set_humidity;
     _set_temperature := set_temperature;
     _attr_preset_mode := PRESET_NONE;
     _attr_temperature_unit := temperature_unit;
     _attr_supported_features := features;
     _attr_target_temperature_step := temperature_step;
     _attr_max_temp := max_temp;
     _attr_min_temp := min_temp;
     _attr_hvac_modes := hvac_modes;
     _attr_preset_modes := preset_modes;
     _attr_min_humidity := min_humidity;
     _attr_max_humidity := max_humidity;
     _attr_fan_modes := fan_modes;
     _attr_swing_modes := swing_modes |}.

(** [async_added_to_hass]: its effect on the global table (the log
    records are not modelled). *)
Definition async_added_to_hass (tbl : gmap string HVACMode.t)
    (self : TuyaClimateEntity) : gmap string HVACMode.t :=
  match find_dpcode_enum (device self)
          [_get_right_dpcode (_instruction_type self) DPCode.MODE] true with
  | Some _ =>
      if String.eqb (_instruction_type self) "DP Instructions"
      then
        if String.eqb (key (entity_description self)) "wk"
        then <["1" := HVACMode.HEAT_COOL]> (<["0" := HVACMode.AUTO]> tbl)
        else tbl
      else tbl
  | None => tbl
  end.
(** *** Read path *)

Definition right_dpcode (self : TuyaClimateEntity) : string -> string :=
  _get_right_dpcode (_instruction_type self).

Definition current_temperature (self : TuyaClimateEntity)
    : Result (option Value) :=
  match _current_temperature self with
  | None => Ok None
  | Some t =>
      match status (device self) !! dpcode t with
      | None => Ok None
      | Some temperature =>
          temperature ←
            (if (scale t =? 0) && negb (step t =? 1)
             then truediv temperature (base_value t)
             else Ok temperature);
          v ← scale_value t temperature;
          Ok (Some v)
      end
  end.

Definition current_humidity (self : TuyaClimateEntity)
    : Result (option Value) :=
  match _current_humidity self with
  | None => Ok None
  | Some t =>
      match status (device self) !! dpcode t with
      | None => Ok None
      | Some humidity =>
          v ← scale_value t humidity;
          r ← py_round v;
          Ok (Some r)
      end
  end.

Definition target_temperature (self : TuyaClimateEntity)
    : Result (option Value) :=
  match _set_temperature self with
  | None => Ok None
  | Some t =>
      match status (device self) !! dpcode t with
      | None => Ok None
      | Some temperature =>
          v ← scale_value t temperature;
          Ok (Some v)
      end
  end.

Definition target_humidity (self : TuyaClimateEntity)
    : Result (option Value) :=
  match _set_humidity self with
  | None => Ok None
  | Some t =>
      match status (device self) !! dpcode t with
      | None => Ok None
      | Some humidity =>
          v ← scale_value t humidity;
          r ← py_round v;
          Ok (Some r)
      end
  end.

(** [mode in TUYA_HVAC_TO_HA] followed by [TUYA_HVAC_TO_HA[mode]]: a
    key that is not a string is in no case a key of the table. *)
Definition translate (tbl : gmap string HVACMode.t) (mode : option Value)
    : option HVACMode.t :=
  match mode with
  | Some (VStr m) => tbl !! m
  | _ => None
  end.

Definition hvac_mode (tbl : gmap string HVACMode.t)
    (self : TuyaClimateEntity) : HVACMode.t :=
  let st := status (device self) in
  if negb (truthy (default (VBool true) (st !! right_dpcode self DPCode.SWITCH)))
  then HVACMode.OFF
  else if negb (contains (function (device self)) (right_dpcode self DPCode.MODE))
  then
    if truthy (default (VBool false) (st !! right_dpcode self DPCode.SWITCH))
    then switch_only_hvac_mode (entity_description self)
    else HVACMode.OFF
  else
    match translate tbl (st !! right_dpcode self DPCode.MODE) with
    | Some ha_mode => ha_mode
    | None =>
        if truthy (default (VBool false) (st !! DPCode.SWITCH))
        then switch_only_hvac_mode (entity_description self)
        else HVACMode.OFF
    end.

(** The first [preset_mode] of the class body.  The class body binds
    the name a second time further down, so this definition is not the
    attribute of the class. *)
Definition preset_mode_shadowed (tbl : gmap string HVACMode.t)
    (self : TuyaClimateEntity) : option Value :=
  if negb (contains (function (device self)) DPCode.MODE) then None
  else
    let mode := status (device self) !! DPCode.MODE in
    match translate tbl mode with
    | Some _ => None
    | None => mode
    end.

Definition fan_mode (self : TuyaClimateEntity) : option Value :=
  status (device self) !! right_dpcode self DPCode.FAN_SPEED_ENUM.

Definition swing_mode (self : TuyaClimateEntity) : string :=
  let st := status (device self) in
  if existsb (fun dpcode => truthy_opt (st !! dpcode))
       [right_dpcode self DPCode.SHAKE; right_dpcode self DPCode.SWING]
  then SWING_ON
  else
    let horizontal := truthy_opt (st !! right_dpcode self DPCode.SWITCH_HORIZONTAL) in
    let vertical := truthy_opt (st !! right_dpcode self DPCode.SWITCH_VERTICAL) in
    if horizontal && vertical then SWING_BOTH
    else if horizontal then SWING_HORIZONTAL
    else if vertical then SWING_VERTICAL
    else SWING_OFF.

(** The [preset_modes] property. *)
Definition preset_modes (self : TuyaClimateEntity) : option (list string) :=
  Some [PRESET_NONE; PRESET_ECO].

(** The second [preset_mode] of the class body: the attribute of the
    class. *)
Definition preset_mode (self : TuyaClimateEntity) : option string :=
  let eco_mode := status (device self) !! right_dpcode self DPCode.ECO in
  Some (if truthy_opt eco_mode then PRESET_ECO else PRESET_NONE).

(** *** Write path *)

Definition set_hvac_mode (hvac_mode : HVACMode.t) : Action unit :=
  self ← get_self;
  let commands :=
    [ {| code := right_dpcode self DPCode.SWITCH;
         value := VBool (HVACMode.neqb_OFF hvac_mode) |} ] in
  let commands :=
    match _hvac_to_tuya self !! hvac_mode with
    | Some tuya_mode =>
        commands ++ [ {| code := right_dpcode self DPCode.MODE;
                         value := VStr tuya_mode |} ]
    | None => commands
    end in
  _send_command commands.

(** The first [set_preset_mode] of the class body, rebound further
    down like [preset_mode]. *)
Definition set_preset_mode_shadowed (preset_mode : string) : Action unit :=
  _send_command [ {| code := DPCode.MODE; value := VStr preset_mode |} ].

Definition set_fan_mode (fan_mode : string) : Action unit :=
  self ← get_self;
  _send_command
    [ {| code := right_dpcode self DPCode.FAN_SPEED_ENUM; value := VStr fan_mode |} ].

Definition set_humidity (humidity : Z) : Action unit :=
  self ← get_self;
  match _set_humidity self with
  | None =>
      raise (RuntimeError
               "Cannot set humidity, device doesn't provide methods to set it")
  | Some t =>
      _send_command
        [ {| code := dpcode t;
             value := VInt (scale_value_back t (Q2Qc (inject_Z humidity))) |} ]
  end.

Definition set_swing_mode (swing_mode : string) : Action unit :=
  self ← get_self;
  _send_command
    [ {| code := right_dpcode self DPCode.SHAKE;
         value := VBool (String.eqb swing_mode SWING_ON) |};
      {| code := right_dpcode self DPCode.SWING;
         value := VBool (String.eqb swing_mode SWING_ON) |};
      {| code := right_dpcode self DPCode.SWITCH_VERTICAL;
         value := VBool (str_in swing_mode [SWING_BOTH; SWING_VERTICAL]) |};
      {| code := right_dpcode self DPCode.SWITCH_HORIZONTAL;
         value := VBool (str_in swing_mode [SWING_BOTH; SWING_HORIZONTAL]) |} ].

(** [round] of the integer [scale_value_back] returns is that integer. *)
Definition set_temperature (kwargs : gmap string Qc) : Action unit :=
  self ← get_self;
  match _set_temperature self with
  | None =>
      raise (RuntimeError
               "Cannot set target temperature, device doesn't provide methods to set it")
  | Some t =>
      temperature ← getitem kwargs "temperature";
      _send_command
        [ {| code := dpcode t;
             value := VInt (scale_value_back t temperature) |} ]
  end.

Definition turn_on : Action unit :=
  self ← get_self;
  if contains (function (device self)) (right_dpcode self DPCode.SWITCH)
  then
    _send_command
      [ {| code := right_dpcode self DPCode.SWITCH; value := VBool true |} ]
  else
    match List.find (fun mode => bool_decide (mode ∈ _attr_hvac_modes self))
            [HVACMode.HEAT_COOL; HVACMode.HEAT; HVACMode.COOL] with
    | Some mode => set_hvac_mode mode
    | None => mret tt
    end.

Definition turn_off : Action unit :=
  self ← get_self;
  if contains (function (device self)) (right_dpcode self DPCode.SWITCH)
  then
    _send_command
      [ {| code := right_dpcode self DPCode.SWITCH; value := VBool false |} ]
  else if bool_decide (HVACMode.OFF ∈ _attr_hvac_modes self)
  then set_hvac_mode HVACMode.OFF
  else mret tt.

(** The second [set_preset_mode] of the class body: the attribute of
    the class. *)
Definition set_preset_mode (preset_mode : string) : Action unit :=
  self ← get_self;
  match preset_modes self with
  | None => mret tt
  | Some modes =>
      if negb (str_in preset_mode modes) then mret tt
      else
        _ ← assign_attr_preset_mode preset_mode;
        let send_value := String.eqb preset_mode PRESET_ECO in
        self ← get_self;
        _send_command
          [ {| code := right_dpcode self DPCode.ECO; value := VBool send_value |} ]
  end.
End Adapter.

(** ** A reference implementation of the base interface

    The statements below are about every implementation of [TuyaEntity];
    to run the adapter on a device one is needed.  It is written from the
    description of the resolver and of the converter. *)

Definition decode_integer (c : string) (d : DPDeclaration)
    : option IntegerTypeData :=
  match decl_type d, decl_values d with
  | DP_INTEGER, IntegerValues vmin vmax vscale vstep =>
      Some {| dpcode := c; min := vmin; max := vmax;
              scale := vscale; step := vstep |}
  | _, _ => None
  end.

Definition decode_enum (c : string) (d : DPDeclaration)
    : option EnumTypeData :=
  match decl_type d, decl_values d with
  | DP_ENUM, EnumValues vrange => Some {| enum_dpcode := c; range := vrange |}
  | _, _ => None
  end.

(** The declarations of one candidate, the preferred kind first. *)
Definition declarations (device : TuyaDevice) (prefer_function : bool)
    (c : string) : list DPDeclaration :=
  let writable := option_list (function device !! c) in
  let readable := option_list (status_range device !! c) in
  if prefer_function then writable ++ readable else readable ++ writable.

Fixpoint first_decoded {A} (decode : DPDeclaration -> option A)
    (ds : list DPDeclaration) : option A :=
  match ds with
  | [] => None
  | d :: ds' =>
      match decode d with
      | Some a => Some a
      | None => first_decoded decode ds'
      end
  end.

(** Modelled from the spec: the data-point resolver, a method of the base
    class in [.base].  Candidates are tried in order; for one candidate a
    writable declaration is preferred over a read-only one when
    [prefer_function] is set; a declaration of another type than the
    required one is passed over. *)
Fixpoint resolve {A} (decode : string -> DPDeclaration -> option A)
    (device : TuyaDevice) (candidates : list string) (prefer_function : bool)
    : option A :=
  match candidates with
  | [] => None
  | c :: rest =>
      match first_decoded (decode c) (declarations device prefer_function c) with
      | Some a => Some a
      | None => resolve decode device rest prefer_function
      end
  end.

(** Modelled from the spec: without a required type a candidate that is
    declared, or present in the snapshot, is returned as it is. *)
Fixpoint resolve_code (device : TuyaDevice) (candidates : list string)
    (prefer_function : bool) : option string :=
  match candidates with
  | [] => None
  | c :: rest =>
      if contains (function device) c || contains (status_range device) c
         || contains (status device) c
      then Some c
      else resolve_code device rest prefer_function
  end.

(** Modelled from the spec: [IntegerTypeData.scale_value_back], the
    inverse of [scale_value], rounded to the nearest raw integer that is
    a multiple of the step. *)
Definition nearest_step_raw (t : IntegerTypeData) (scaled : Qc) : Z :=
  let raw := (scaled * pow10q (scale t))%Qc in
  if step t =? 0 then round_half_even raw
  else step t * round_half_even (raw / Q2Qc (inject_Z (step t)))%Qc.

(** Modelled from the spec: the spec names a data point by its
    identifier and knows no other name for it; with the standard
    instruction set [_get_right_dpcode] (a method of the base class in
    [.base]) returns the code it is given. *)
Definition StandardEntity : TuyaEntity := {|
  _get_right_dpcode := fun _ c => c;
  find_dpcode := resolve_code;
  find_dpcode_enum := resolve decode_enum;
  find_dpcode_integer := resolve decode_integer;
  scale_value_back := nearest_step_raw
|}.

(** An implementation that renames data points under the instruction
    type ["DP Instructions"].  The names are illustrative: the table the
    base class uses is in [.base]. *)
Definition RenamingEntity : TuyaEntity := {|
  _get_right_dpcode := fun instruction_type c =>
    if String.eqb instruction_type "DP Instructions" then
      if String.eqb c DPCode.SWITCH then "Power"
      else if String.eqb c DPCode.MODE then "Mode"
      else c
    else c;
  find_dpcode := resolve_code;
  find_dpcode_enum := resolve decode_enum;
  find_dpcode_integer := resolve decode_integer;
  scale_value_back := nearest_step_raw
|}.

(** ** Example devices *)

Definition boolean_dp : DPDeclaration :=
  {| decl_type := DP_BOOLEAN; decl_values := NoValues |}.

Definition description_of (category : string) : TuyaClimateEntityDescription :=
  default {| key := category; switch_only_hvac_mode := HVACMode.OFF |}
          (CLIMATE_DESCRIPTIONS !! category).

(** A thermostat (category [wk]) with a writable target temperature in
    tenths of a degree, a switch and a mode with one vendor value the
    table does not know. *)
Definition thermostat : TuyaDevice := {|
  category := "wk";
  name := "thermostat";
  status :=
    <["temp_set" := VInt 225]>
    (<["switch" := VBool true]>
    (<["mode" := VStr "holiday"]> ∅));
  function :=
    <["temp_set" :=
        {| decl_type := DP_INTEGER;
           decl_values := IntegerValues 50 350 1 5 |}]>
    (<["switch" := boolean_dp]>
    (<["mode" :=
         {| decl_type := DP_ENUM;
            decl_values := EnumValues ["auto"; "cold"; "holiday"; "freeze"] |}]> ∅));
  status_range := ∅
|}.

(** A heater (category [qn]) whose temperatures declare scale 0 and
    step 5, and which has neither a mode nor a humidity data point. *)
Definition heater : TuyaDevice := {|
  category := "qn";
  name := "heater";
  status :=
    <["temp_set" := VInt 250]>
    (<["temp_current" := VInt 250]>
    (<["switch" := VBool true]> ∅));
  function :=
    <["temp_set" :=
        {| decl_type := DP_INTEGER;
           decl_values := IntegerValues 0 500 0 5 |}]>
    (<["switch" := boolean_dp]> ∅);
  status_range :=
    <["temp_current" :=
        {| decl_type := DP_INTEGER;
           decl_values := IntegerValues 0 500 0 5 |}]> ∅
|}.

(** An air conditioner (category [kt]) addressed with renamed data
    points: switched on, in a vendor mode the table does not know. *)
Definition air_conditioner : TuyaDevice := {|
  category := "kt";
  name := "air conditioner";
  status :=
    <["Power" := VBool true]>
    (<["Mode" := VStr "xyz"]> ∅);
  function :=
    <["Power" := boolean_dp]>
    (<["Mode" :=
         {| decl_type := DP_ENUM;
            decl_values := EnumValues ["cold"; "xyz"] |}]> ∅);
  status_range := ∅
|}.

Definition thermostat_entity : TuyaClimateEntity :=
  @__init__ StandardEntity TUYA_HVAC_TO_HA thermostat
    (description_of "wk") "Standard".

Definition heater_entity : TuyaClimateEntity :=
  @__init__ StandardEntity TUYA_HVAC_TO_HA heater
    (description_of "qn") "Standard".

Definition air_conditioner_entity : TuyaClimateEntity :=
  @__init__ RenamingEntity TUYA_HVAC_TO_HA air_conditioner
    (description_of "kt") "DP Instructions".

(** The mode enum of the thermostat. *)
Definition thermostat_mode : EnumTypeData :=
  {| enum_dpcode := "mode"; range := ["auto"; "cold"; "holiday"; "freeze"] |}.

(** The target-temperature binding of the thermostat. *)
Definition thermostat_temp_set : IntegerTypeData :=
  {| dpcode := "temp_set"; min := 50; max := 350; scale := 1; step := 5 |}.

(** The two temperature bindings of the heater. *)
Definition heater_temp_set : IntegerTypeData :=
  {| dpcode := "temp_set"; min := 0; max := 500; scale := 0; step := 5 |}.

Definition heater_temp_current : IntegerTypeData :=
  {| dpcode := "temp_current"; min := 0; max := 500; scale := 0; step := 5 |}.

(** The SDK refreshes the snapshot of the device out of band; the entity
    keeps its bindings. *)
Definition with_status (st : gmap string Value) (self : TuyaClimateEntity)
    : TuyaClimateEntity :=
  let d := device self in
  {| device :=
       {| category := category d; name := name d; status := st;
          function := function d; status_range := status_range d |};
     entity_description := entity_description self;
     _instruction_type := _instruction_type self;
     _current_humidity := _current_humidity self;
     _current_temperature := _current_temperature self;
     _hvac_to_tuya := _hvac_to_tuya self;
     _set_humidity := _set_humidity self;
     _set_temperature := _set_temperature self;
     _attr_preset_mode := _attr_preset_mode self;
     _attr_temperature_unit := _attr_temperature_unit self;
     _attr_supported_features := _attr_supported_features self;
     _attr_target_temperature_step := _attr_target_temperature_step self;
     _attr_max_temp := _attr_max_temp self;
     _attr_min_temp := _attr_min_temp self;
     _attr_hvac_modes := _attr_hvac_modes self;
     _attr_preset_modes := _attr_preset_modes self;
     _attr_min_humidity := _attr_min_humidity self;
     _attr_max_humidity := _attr_max_humidity self;
     _attr_fan_modes := _attr_fan_modes self;
     _attr_swing_modes := _attr_swing_modes self |}.

(** The four logical properties read through an integer binding, with
    the attribute that holds the binding and the getter of each. *)
Inductive LogicalProperty : Set :=
| CurrentTemperature | TargetTemperature | CurrentHumidity | TargetHumidity.

Definition binding (p : LogicalProperty) (self : TuyaClimateEntity)
    : option IntegerTypeData :=
  match p with
  | CurrentTemperature => _current_temperature self
  | TargetTemperature => _set_temperature self
  | CurrentHumidity => _current_humidity self
  | TargetHumidity => _set_humidity self
  end.

Definition getter (p : LogicalProperty) (self : TuyaClimateEntity)
    : Result (option Value) :=
  match p with
  | CurrentTemperature => current_temperature self
  | TargetTemperature => target_temperature self
  | CurrentHumidity => current_humidity self
  | TargetHumidity => target_humidity self
  end.


(** The reverse mapping the loop records, on its own. *)
Definition record_reverse (tbl : gmap string HVACMode.t)
    (h2t : gmap HVACMode.t string) (tuya_mode : string)
    : gmap HVACMode.t string :=
  match tbl !! tuya_mode with
  | Some ha_mode => <[ha_mode := tuya_mode]> h2t
  | None => h2t
  end.

(** ** Discovery

    [async_setup_entry] defines the callback [async_discover_device] and
    calls it once with the keys of the device map.  The device map is a
    dictionary whose order of insertion decides the order of the
    entities, hence an association list; an entry may hold no device. *)


Section Discovery.
Context `{Base : TuyaEntity}.

(** The key [CONF_INSTRUCTIONS_TYPE] of the entry data is declared in
    [.const], which is not part of the sources: it is a parameter. *)
Variable CONF_INSTRUCTIONS_TYPE : string.


End Discovery.

(** [features & flag], the test the host makes of a feature flag. *)
Definition supports (features flag : Z) : bool :=
  negb (Z.land features flag =? 0).

(** ** Commands and snapshots *)

(** The snapshot shows every command of the batch: the data point of
    each command holds the value of the command. *)
Definition reflects (st : gmap string Value) (batch : list Command) : Prop :=
  Forall (fun c => st !! code c = Some (value c)) batch.

(** The calls of the write path, to speak of all of them at once. *)
Inductive Call : Type :=
| CallSetHvacMode (hvac_mode : HVACMode.t)
| CallSetPresetMode (preset_mode : string)
| CallSetFanMode (fan_mode : string)
| CallSetHumidity (humidity : Z)
| CallSetSwingMode (swing_mode : string)
| CallSetTemperature (kwargs : gmap string Qc)
| CallTurnOn
| CallTurnOff.

Definition call `{Base : TuyaEntity} (c : Call) : Action unit :=
  match c with
  | CallSetHvacMode hvac_mode => set_hvac_mode hvac_mode
  | CallSetPresetMode preset_mode => set_preset_mode preset_mode
  | CallSetFanMode fan_mode => set_fan_mode fan_mode
  | CallSetHumidity humidity => set_humidity humidity
  | CallSetSwingMode swing_mode => set_swing_mode swing_mode
  | CallSetTemperature kwargs => set_temperature kwargs
  | CallTurnOn => turn_on
  | CallTurnOff => turn_off
  end.

(** A sequence of calls; the first exception ends it. *)
Fixpoint calls `{Base : TuyaEntity} (cs : list Call) : Action unit :=
  match cs with
  | [] => mret tt
  | c :: cs' => _ ← call c; calls cs'
  end.

(** Two states of an entity that differ at most in [_attr_preset_mode]. *)
Definition same_bindings (e e' : TuyaClimateEntity) : Prop :=
  device e' = device e
  /\ entity_description e' = entity_description e
  /\ _instruction_type e' = _instruction_type e
  /\ _current_humidity e' = _current_humidity e
  /\ _current_temperature e' = _current_temperature e
  /\ _hvac_to_tuya e' = _hvac_to_tuya e
  /\ _set_humidity e' = _set_humidity e
  /\ _set_temperature e' = _set_temperature e
  /\ _attr_temperature_unit e' = _attr_temperature_unit e
  /\ _attr_supported_features e' = _attr_supported_features e
  /\ _attr_target_temperature_step e' = _attr_target_temperature_step e
  /\ _attr_max_temp e' = _attr_max_temp e
  /\ _attr_min_temp e' = _attr_min_temp e
  /\ _attr_hvac_modes e' = _attr_hvac_modes e
  /\ _attr_preset_modes e' = _attr_preset_modes e
  /\ _attr_min_humidity e' = _attr_min_humidity e
  /\ _attr_max_humidity e' = _attr_max_humidity e
  /\ _attr_fan_modes e' = _attr_fan_modes e
  /\ _attr_swing_modes e' = _attr_swing_modes e.



(** ** A second example device *)

(** An air conditioner (category [kt]) with both temperature units, set
    to Fahrenheit, with a fan, two swing axes and a humidity target. *)
Definition split_unit : TuyaDevice := {|
  category := "kt";
  name := "split unit";
  status :=
    <["switch" := VBool true]>
    (<["mode" := VStr "cold"]>
    (<["temp_current" := VInt 24]>
    (<["temp_current_f" := VInt 75]>
    (<["temp_set" := VInt 22]>
    (<["temp_set_f" := VInt 72]>
    (<["c_f" := VStr "F"]>
    (<["fan_speed_enum" := VStr "low"]>
    (<["switch_horizontal" := VBool true]>
    (<["switch_vertical" := VBool false]>
    (<["humidity_set" := VInt 40]>
    (<["humidity_current" := VInt 45]> ∅)))))))))));
  function :=
    <["switch" := boolean_dp]>
    (<["mode" :=
         {| decl_type := DP_ENUM;
            decl_values := EnumValues ["cold"; "hot"; "wind"] |}]>
    (<["temp_set" :=
         {| decl_type := DP_INTEGER;
            decl_values := IntegerValues 16 31 0 1 |}]>
    (<["temp_set_f" :=
         {| decl_type := DP_INTEGER;
            decl_values := IntegerValues 60 88 0 1 |}]>
    (<["fan_speed_enum" :=
         {| decl_type := DP_ENUM;
            decl_values := EnumValues ["low"; "high"] |}]>
    (<["switch_horizontal" := boolean_dp]>
    (<["switch_vertical" := boolean_dp]>
    (<["humidity_set" :=
         {| decl_type := DP_INTEGER;
            decl_values := IntegerValues 0 100 0 1 |}]> ∅)))))));
  status_range :=
    <["temp_current" :=
        {| decl_type := DP_INTEGER;
           decl_values := IntegerValues 0 50 0 1 |}]>
    (<["temp_current_f" :=
         {| decl_type := DP_INTEGER;
            decl_values := IntegerValues 32 122 0 1 |}]>
    (<["humidity_current" :=
         {| decl_type := DP_INTEGER;
            decl_values := IntegerValues 0 100 0 1 |}]> ∅))
|}.

Definition split_unit_entity : TuyaClimateEntity :=
  @__init__ StandardEntity TUYA_HVAC_TO_HA split_unit
    (description_of "kt") "Standard".


Definition bare_heater : TuyaDevice := {|
  category := "qn"; name := "bare heater";
  status := ∅; function := ∅; status_range := ∅
|}.

Definition bare_heater_entity : TuyaClimateEntity :=
  @__init__ StandardEntity TUYA_HVAC_TO_HA bare_heater
    (description_of "qn") "Standard".

(** A thermostat (category [wk]) addressed with renamed data points,
    whose modes are the vendor values ["0"] and ["1"]. *)
Definition dp_thermostat : TuyaDevice := {|
  category := "wk";
  name := "dp thermostat";
  status := <["Power" := VBool true]> (<["Mode" := VStr "1"]> ∅);
  function :=
    <["Power" := boolean_dp]>
    (<["Mode" :=
         {| decl_type := DP_ENUM;
            decl_values := EnumValues ["0"; "1"] |}]> ∅);
  status_range := ∅
|}.

Definition dp_thermostat_entity : TuyaClimateEntity :=
  @__init__ RenamingEntity TUYA_HVAC_TO_HA dp_thermostat
    (description_of "wk") "DP Instructions".



(** * Properties *)

(** ** Arithmetic of the converter *)

Lemma Result_bind_Ok {A B} (a : A) (k : A -> Result B) :
  mbind k (Ok a) = k a.
Proof. reflexivity. Qed.

Lemma scale_value_scale0 (t : IntegerTypeData) (v : Value) :
  scale t = 0 -> scale_value t v = truediv v (VInt 1).
Proof. intros Hs. unfold scale_value. now rewrite Hs. Qed.

(** The rounding of the specification never yields a NaN from a
    non-negative mantissa, so the quotient of two finite floats is a
    float or an infinity. *)
Lemma iter_pos_invariant {A} (P : A -> Prop) (f : A -> A) :
  (forall x, P x -> P (f x)) ->
  forall n x, P x -> P (SpecFloat.iter_pos f n x).
Proof.
  intros Hf n. induction n as [n IH|n IH|]; intros x Hx;
    cbn [SpecFloat.iter_pos]; auto.
Qed.

Lemma shr_1_nonneg (mrs : shr_record) :
  0 <= shr_m mrs -> 0 <= shr_m (shr_1 mrs).
Proof.
  destruct mrs as [m r s]. cbn [shr_m]. intros Hm.
  destruct m as [|[p|p|]|p]; cbn; lia.
Qed.

Lemma shr_fexp_nonneg (prec emax m e : Z) (l : location) :
  0 <= m -> 0 <= shr_m (fst (shr_fexp prec emax m e l)).
Proof.
  intros Hm. unfold shr_fexp, shr.
  assert (H0 : 0 <= shr_m (shr_record_of_loc m l))
    by (destruct l as [|[]]; exact Hm).
  destruct (fexp prec emax (Zdigits2 m + e) - e) as [|p|p]; cbn [fst];
    [exact H0 | | exact H0].
  now apply iter_pos_invariant; [apply shr_1_nonneg |].
Qed.

Lemma round_nearest_even_nonneg (m : Z) (l : location) :
  0 <= m -> 0 <= round_nearest_even m l.
Proof.
  intros Hm. destruct l as [|[]]; cbn; [lia | | lia | lia].
  destruct (Z.even m); lia.
Qed.

Lemma binary_round_aux_not_nan (prec emax : Z) (s : bool) (m e : Z)
    (l : location) :
  0 <= m -> binary_round_aux prec emax s m e l <> S754_nan.
Proof.
  intros Hm. unfold binary_round_aux.
  pose proof (shr_fexp_nonneg prec emax m e l Hm) as H1.
  destruct (shr_fexp prec emax m e l) as [mrs' e']. cbn [fst] in H1.
  pose proof (shr_fexp_nonneg prec emax _ e' loc_Exact
                (round_nearest_even_nonneg _ (loc_of_shr_record mrs') H1))
    as H2.
  destruct (shr_fexp prec emax _ e' loc_Exact) as [mrs'' e''].
  cbn [fst] in H2.
  destruct (shr_m mrs'') as [|p|p]; [discriminate | | lia].
  destruct (e'' <=? emax - prec); discriminate.
Qed.

Lemma SFdiv_finite_not_nan (prec emax : Z) (sx sy : bool) (mx my : positive)
    (ex ey : Z) :
  SFdiv prec emax (S754_finite sx mx ex) (S754_finite sy my ey) <> S754_nan.
Proof.
  cbn [SFdiv]. unfold SFdiv_core_binary.
  set (m' := match _ with Z.pos _ => _ | Z0 => _ | Z.neg _ => _ end).
  assert (Hm' : 0 <= m').
  { subst m'. destruct (_ - _ - _) as [|p|p]; [lia | | lia].
    apply Z.shiftl_nonneg. lia. }
  pose proof (Z.div_pos m' (Z.pos my) Hm' ltac:(lia)) as Hq.
  unfold Z.div in Hq. destruct (Z.div_eucl m' (Z.pos my)) as [q r].
  now apply binary_round_aux_not_nan.
Qed.

(** The quotient of two [int]s, the divisor not zero: a float that
    [round] accepts, or [OverflowError]. *)
Lemma int_truediv_cases (a b : Z) :
  b <> 0 ->
  (exists f z, int_truediv a b = Ok f /\ float_round f = Ok z)
  \/ int_truediv a b = Raise OverflowError.
Proof.
  intros Hb. unfold int_truediv.
  destruct (Z.eqb_spec b 0) as [|_]; [contradiction |].
  destruct (a =? 0); [left; eauto |].
  pose proof (SFdiv_finite_not_nan 53 1024 (a <? 0) (b <? 0)
                (Z.to_pos (Z.abs a)) (Z.to_pos (Z.abs b)) 0 0) as Hnan.
  destruct (SFdiv 53 1024 _ _) as [s|s| |s m e];
    [left; eauto | now right | contradiction | left; eauto].
Qed.

Lemma as_number_is_int (v : Value) :
  is_int v = true -> exists z, as_number v = Some (NInt z).
Proof. destruct v; [eauto | eauto | discriminate | discriminate]. Qed.

(** Dividing an [int] by an [int] that is not zero. *)
Lemma truediv_int_cases (v : Value) (b : Z) :
  is_int v = true -> b <> 0 ->
  (exists f z, truediv v (VInt b) = Ok (VFloat f) /\ float_round f = Ok z)
  \/ truediv v (VInt b) = Raise OverflowError.
Proof.
  intros Hv Hb. destruct (as_number_is_int v Hv) as (a & Ha).
  unfold truediv. rewrite Ha. cbn [as_number].
  destruct (int_truediv_cases a b Hb) as [(f & z & -> & Hz)| ->];
    [left; eauto | now right].
Qed.

(** Scaling an [int] with a scale that is not negative. *)
Lemma scale_value_int_cases (t : IntegerTypeData) (v : Value) :
  is_int v = true -> 0 <= scale t ->
  (exists f z, scale_value t v = Ok (VFloat f) /\ float_round f = Ok z)
  \/ scale_value t v = Raise OverflowError.
Proof.
  intros Hv Hs. unfold scale_value, pow10.
  destruct (Z.leb_spec 0 (scale t)) as [_|]; [| lia].
  rewrite Result_bind_Ok. apply truediv_int_cases; [exact Hv |].
  pose proof (Z.pow_pos_nonneg 10 (scale t)). lia.
Qed.

(** Dividing a float by the [int] 1 gives a float and does not raise. *)
Lemma truediv_float_one (f : spec_float) :
  truediv (VFloat f) (VInt 1) = Ok (VFloat (SFdiv 53 1024 f (float_of_Z 1))).
Proof. reflexivity. Qed.

Lemma scale_value_string (t : IntegerTypeData) (s : string) :
  0 <= scale t -> scale_value t (VStr s) = Raise TypeError.
Proof.
  intros Hs. unfold scale_value, pow10.
  destruct (Z.leb_spec 0 (scale t)) as [_|]; [reflexivity | lia].
Qed.

(** ** Reading temperatures and humidities *)

Lemma target_temperature_bound (self : TuyaClimateEntity)
    (t : IntegerTypeData) (raw : Value) :
  _set_temperature self = Some t ->
  status (device self) !! dpcode t = Some raw ->
  target_temperature self = (v ← scale_value t raw; Ok (Some v)).
Proof.
  intros Hb Hraw. unfold target_temperature. now rewrite Hb, Hraw.
Qed.




(** C6.  A getter of a logical property returns [None], and does not
    raise, when the property has no binding, and also when it has one
    whose data point is absent from the status snapshot. *)
Theorem getter_unknown_without_binding_or_value
    (p : LogicalProperty) (self : TuyaClimateEntity) :
  binding p self = None
  \/ (exists t, binding p self = Some t
                /\ status (device self) !! dpcode t = None) ->
  getter p self = Ok None.
Proof.
  intros [Hnone | (t & Hsome & Hraw)].
  - destruct p; cbn in *;
      [unfold current_temperature | unfold target_temperature
       | unfold current_humidity | unfold target_humidity];
      now rewrite Hnone.
  - destruct p; cbn in *;
      [unfold current_temperature | unfold target_temperature
       | unfold current_humidity | unfold target_humidity];
      now rewrite Hsome, Hraw.
Qed.

Lemma getter_unknown_without_binding_or_value_witness :
  (binding TargetHumidity heater_entity = None
   /\ getter TargetHumidity heater_entity = Ok None)
  /\ (binding CurrentTemperature (with_status ∅ heater_entity)
      = Some heater_temp_current
      /\ status (device (with_status ∅ heater_entity))
           !! dpcode heater_temp_current = None
      /\ getter CurrentTemperature (with_status ∅ heater_entity) = Ok None).
Proof.
  split; [split; [reflexivity |] | split; [reflexivity | split; [reflexivity |]]].
  - apply (getter_unknown_without_binding_or_value TargetHumidity
             heater_entity).
    left. reflexivity.
  - apply (getter_unknown_without_binding_or_value CurrentTemperature
             (with_status ∅ heater_entity)).
    right. exists heater_temp_current. split; reflexivity.
Defined.

(** ** Reading the HVAC mode *)

Section HvacMode.
Context `{Base : TuyaEntity}.
Variable tbl : gmap string HVACMode.t.
Variable self : TuyaClimateEntity.

Let st := status (device self).
Let fallback := switch_only_hvac_mode (entity_description self).

(** The switch is in the snapshot and its value is false. *)
Lemma hvac_mode_switch_off (v : Value) :
  st !! right_dpcode self DPCode.SWITCH = Some v -> truthy v = false ->
  hvac_mode tbl self = HVACMode.OFF.
Proof.
  intros Hsw Hv. unfold hvac_mode. fold st. rewrite Hsw. cbn.
  now rewrite Hv.
Qed.

(** No mode data point is declared. *)
Lemma hvac_mode_no_mode_declared :
  contains (function (device self)) (right_dpcode self DPCode.MODE) = false ->
  hvac_mode tbl self
  = if truthy_opt (st !! right_dpcode self DPCode.SWITCH) then fallback
    else HVACMode.OFF.
Proof.
  intros Hm. unfold hvac_mode. fold st. rewrite Hm.
  destruct (st !! right_dpcode self DPCode.SWITCH) as [v|]; cbn; [| reflexivity].
  now destruct (truthy v).
Qed.

(** The mode is declared, the switch is not off and the mode value has
    a translation. *)
Lemma hvac_mode_translated (ha_mode : HVACMode.t) :
  truthy (default (VBool true) (st !! right_dpcode self DPCode.SWITCH)) = true ->
  contains (function (device self)) (right_dpcode self DPCode.MODE) = true ->
  translate tbl (st !! right_dpcode self DPCode.MODE) = Some ha_mode ->
  hvac_mode tbl self = ha_mode.
Proof.
  intros Hsw Hm Htr. unfold hvac_mode. fold st.
  now rewrite Hsw, Hm, Htr.
Qed.

(** The mode is declared, the switch is not off and the mode value has
    no translation: the answer depends on the entry of the snapshot
    named by the member [DPCode.SWITCH] itself, not on the entry
    [_get_right_dpcode] names. *)
Lemma hvac_mode_untranslated :
  truthy (default (VBool true) (st !! right_dpcode self DPCode.SWITCH)) = true ->
  contains (function (device self)) (right_dpcode self DPCode.MODE) = true ->
  translate tbl (st !! right_dpcode self DPCode.MODE) = None ->
  hvac_mode tbl self
  = if truthy_opt (st !! DPCode.SWITCH) then fallback else HVACMode.OFF.
Proof.
  intros Hsw Hm Htr. unfold hvac_mode. fold st.
  rewrite Hsw, Hm, Htr. cbn.
  destruct (st !! DPCode.SWITCH) as [v|]; reflexivity.
Qed.

(** When [_get_right_dpcode] leaves the code of the switch as it is, the
    getter follows the five cases of the read path. *)
Lemma hvac_mode_cases_same_switch_code :
  right_dpcode self DPCode.SWITCH = DPCode.SWITCH ->
  let sw := st !! DPCode.SWITCH in
  let declared := contains (function (device self)) (right_dpcode self DPCode.MODE) in
  let mode := st !! right_dpcode self DPCode.MODE in
  hvac_mode tbl self
  = match sw with
    | Some v =>
        if negb (truthy v) then HVACMode.OFF
        else if negb declared then fallback
        else match translate tbl mode with
             | Some ha_mode => ha_mode
             | None => fallback
             end
    | None =>
        if negb declared then HVACMode.OFF
        else match translate tbl mode with
             | Some ha_mode => ha_mode
             | None => HVACMode.OFF
             end
    end.
Proof.
  intros Hsame sw declared mode. unfold hvac_mode. fold st.
  rewrite Hsame. fold sw declared mode.
  destruct sw as [v|]; cbn.
  - destruct (truthy v); cbn; [| reflexivity].
    destruct declared; reflexivity.
  - destruct declared; reflexivity.
Qed.
End HvacMode.

(** C2 (as amended).  The getter answers [OFF] when the switch is in
    the snapshot with a false value, whatever the mode; when no mode
    data point is declared, the fallback mode of the category if the
    switch is true and [OFF] if not; the translated host mode when the
    mode is declared, the switch is not off and the mode value has a
    translation; and, for an adapter whose switch keeps its code, when
    the mode is declared and its value has no translation (it is
    unrecognized, or absent from the snapshot), the fallback mode if the
    switch is true and [OFF] if not. *)
Theorem hvac_mode_cases `{Base : TuyaEntity} (tbl : gmap string HVACMode.t)
    (self : TuyaClimateEntity) :
  let st := status (device self) in
  let fallback := switch_only_hvac_mode (entity_description self) in
  let switch := st !! right_dpcode self DPCode.SWITCH in
  let declared :=
    contains (function (device self)) (right_dpcode self DPCode.MODE) in
  let mode := st !! right_dpcode self DPCode.MODE in
  (forall v, switch = Some v -> truthy v = false ->
     hvac_mode tbl self = HVACMode.OFF)
  /\ (declared = false ->
        hvac_mode tbl self
        = if truthy_opt switch then fallback else HVACMode.OFF)
  /\ (forall ha_mode,
        truthy (default (VBool true) switch) = true -> declared = true ->
        translate tbl mode = Some ha_mode ->
        hvac_mode tbl self = ha_mode)
  /\ (right_dpcode self DPCode.SWITCH = DPCode.SWITCH ->
      truthy (default (VBool true) switch) = true -> declared = true ->
      translate tbl mode = None ->
      hvac_mode tbl self
      = if truthy_opt switch then fallback else HVACMode.OFF).
Proof.
  cbv zeta. split; [| split; [| split]].
  - intros v. apply hvac_mode_switch_off.
  - apply hvac_mode_no_mode_declared.
  - intros ha_mode. apply hvac_mode_translated.
  - intros Hsame Hsw Hdecl Htr.
    rewrite (hvac_mode_untranslated tbl self Hsw Hdecl Htr).
    now rewrite Hsame.
Qed.

Lemma hvac_mode_cases_witness :
  let off := with_status (<["switch" := VBool false]>
                          (<["mode" := VStr "auto"]> ∅)) thermostat_entity in
  let on := with_status (<["switch" := VBool true]>
                         (<["mode" := VStr "holiday"]> ∅)) thermostat_entity in
  (status (device off) !! @right_dpcode StandardEntity off DPCode.SWITCH
   = Some (VBool false)
   /\ @hvac_mode StandardEntity TUYA_HVAC_TO_HA off = HVACMode.OFF)
  /\ (@right_dpcode StandardEntity on DPCode.SWITCH = DPCode.SWITCH
      /\ contains (function (device on))
           (@right_dpcode StandardEntity on DPCode.MODE) = true
      /\ translate TUYA_HVAC_TO_HA
           (status (device on) !! @right_dpcode StandardEntity on DPCode.MODE)
         = None
      /\ @hvac_mode StandardEntity TUYA_HVAC_TO_HA on = HVACMode.HEAT_COOL).
Proof.
  cbv zeta. split.
  - split; [reflexivity |].
    destruct (@hvac_mode_cases StandardEntity TUYA_HVAC_TO_HA
                (with_status (<["switch" := VBool false]>
                              (<["mode" := VStr "auto"]> ∅))
                   thermostat_entity)) as (Hoff & _).
    apply (Hoff (VBool false)); reflexivity.
  - do 3 (split; [reflexivity |]).
    destruct (@hvac_mode_cases StandardEntity TUYA_HVAC_TO_HA
                (with_status (<["switch" := VBool true]>
                              (<["mode" := VStr "holiday"]> ∅))
                   thermostat_entity)) as (_ & _ & _ & Hon).
    rewrite Hon; reflexivity.
Defined.

(** C2 as stated fails at the thermostat when the snapshot has the
    switch, true, and no mode value: the mode data point is declared,
    there is no mode value to recognize or not, and the getter answers
    the fallback mode of the category, not [OFF]. *)
Lemma hvac_mode_absent_mode_value_counterexample :
  let self := with_status (<["switch" := VBool true]> ∅) thermostat_entity in
  let st := status (device self) in
  st !! @right_dpcode StandardEntity self DPCode.SWITCH = Some (VBool true)
  /\ contains (function (device self))
       (@right_dpcode StandardEntity self DPCode.MODE) = true
  /\ st !! @right_dpcode StandardEntity self DPCode.MODE = None
  /\ switch_only_hvac_mode (entity_description self) = HVACMode.HEAT_COOL
  /\ @hvac_mode StandardEntity TUYA_HVAC_TO_HA self = HVACMode.HEAT_COOL
  /\ @hvac_mode StandardEntity TUYA_HVAC_TO_HA self <> HVACMode.OFF.
Proof.
  cbv zeta. repeat split; (reflexivity || discriminate).
Qed.

(** The last test of the getter reads the switch under the member
    [DPCode.SWITCH] itself.  At the air conditioner, which is addressed
    with renamed data points, the switch is on, the mode is declared and
    its value ["xyz"] has no translation, the fallback mode of category
    [kt] is [COOL], and the getter answers [OFF]. *)
Lemma hvac_mode_renamed_switch_unrecognized_mode :
  let self := air_conditioner_entity in
  let st := status (device self) in
  st !! @right_dpcode RenamingEntity self DPCode.SWITCH = Some (VBool true)
  /\ contains (function (device self))
       (@right_dpcode RenamingEntity self DPCode.MODE) = true
  /\ st !! @right_dpcode RenamingEntity self DPCode.MODE = Some (VStr "xyz")
  /\ TUYA_HVAC_TO_HA !! "xyz" = None
  /\ switch_only_hvac_mode (entity_description self) = HVACMode.COOL
  /\ @hvac_mode RenamingEntity TUYA_HVAC_TO_HA self = HVACMode.OFF.
Proof.
  cbv zeta. do 5 (split; [reflexivity |]).
  rewrite (@hvac_mode_untranslated RenamingEntity); reflexivity.
Qed.

(** ** Construction: the supported HVAC modes *)

Lemma hvac_modes_fold (tbl : gmap string HVACMode.t) (rng : list string) :
  forall h2t modes unknown,
    fold_left (hvac_modes_step tbl) rng (h2t, modes, unknown)
    = (fold_left (record_reverse tbl) rng h2t,
       modes ++ omap (fun v => tbl !! v) rng,
       unknown ++ filter (fun v => tbl !! v = None) rng).
Proof.
  induction rng as [|v rng IH]; intros h2t modes unknown.
  - cbn. now rewrite !app_nil_r.
  - cbn [fold_left]. unfold hvac_modes_step at 2, record_reverse at 2.
    rewrite filter_cons. cbn [omap list_omap].
    destruct (tbl !! v) as [m|] eqn:Hv.
    + rewrite IH. rewrite decide_False by discriminate.
      now rewrite <- app_assoc.
    + rewrite IH. rewrite decide_True by reflexivity.
      now rewrite <- app_assoc.
Qed.

(** After the loop a host mode is mapped back to the last value of the
    range that translates to it. *)
Lemma record_reverse_fold (tbl : gmap string HVACMode.t) (rng : list string)
    (m : HVACMode.t) :
  forall h2t,
    fold_left (record_reverse tbl) rng h2t !! m
    = match last (filter (fun v => tbl !! v = Some m) rng) with
      | Some v => Some v
      | None => h2t !! m
      end.
Proof.
  induction rng as [|v rng IH]; intros h2t; [reflexivity |].
  cbn [fold_left]. rewrite IH, filter_cons. unfold record_reverse.
  destruct (tbl !! v) as [m'|] eqn:Hv.
  - destruct (decide (m' = m)) as [->|Hne].
    + rewrite decide_True by reflexivity.
      rewrite lookup_insert_eq.
      destruct (filter _ rng) as [|w ws] eqn:Hf; [reflexivity |].
      change (last (v :: w :: ws)) with (last (w :: ws)).
      assert (Hl : is_Some (last (w :: ws))) by (rewrite last_cons; now destruct (last ws)).
      destruct Hl as [y Hy]. now rewrite Hy.
    + rewrite decide_False by congruence.
      rewrite lookup_insert_ne by exact Hne. reflexivity.
  - now rewrite decide_False by discriminate.
Qed.

Lemma last_filter_Some {A} (P : A -> Prop) `{!forall x, Decision (P x)}
    (l : list A) (x : A) :
  x ∈ l -> P x -> exists y, last (filter P l) = Some y /\ y ∈ l /\ P y.
Proof.
  intros Hx HP.
  assert (Hin : x ∈ filter P l) by (apply list_elem_of_filter; auto).
  destruct (last (filter P l)) as [y|] eqn:Hl.
  - exists y. split; [reflexivity |].
    apply last_Some_elem_of, list_elem_of_filter in Hl. tauto.
  - apply last_None in Hl. rewrite Hl in Hin. inversion Hin.
Qed.

Section Construction.
Context `{Base : TuyaEntity}.
Variable tbl : gmap string HVACMode.t.
Variable device : TuyaDevice.
Variable description : TuyaClimateEntityDescription.
Variable instruction_type : string.

Let self := __init__ tbl device description instruction_type.
Let fallback := switch_only_hvac_mode description.
Let mode_type :=
  find_dpcode_enum device
    [_get_right_dpcode instruction_type DPCode.MODE] true.
Let switch_code :=
  find_dpcode device [_get_right_dpcode instruction_type DPCode.SWITCH] true.

(** What the block "Determine HVAC modes" leaves in the entity. *)
Lemma init_hvac_attributes :
  (_hvac_to_tuya self, _attr_hvac_modes self, _attr_preset_modes self)
  = match mode_type with
    | Some enum_type =>
        let '(h2t, modes, unknown) := hvac_modes_loop tbl (range enum_type) in
        match unknown with
        | [] => (h2t, modes, None)
        | _ :: _ => (h2t, modes ++ [fallback], Some unknown)
        end
    | None =>
        if found switch_code then (∅, [HVACMode.OFF; fallback], None)
        else (∅, [], None)
    end.
Proof.
  subst self fallback mode_type switch_code. unfold __init__.
  set (r := _get_right_dpcode instruction_type).
  destruct (use_fahrenheit _
              (find_dpcode_integer device
                 [r DPCode.TEMP_CURRENT; r DPCode.UPPER_TEMP] false) _);
    destruct (use_fahrenheit _
                (find_dpcode_integer device [r DPCode.TEMP_SET] true) _);
    destruct (find_dpcode_integer device [r DPCode.TEMP_SET] true);
    destruct (find_dpcode_integer device [r DPCode.TEMP_SET_F] true);
    destruct (find_dpcode_enum device [r DPCode.MODE] true) as [enum_type|];
    try destruct (hvac_modes_loop tbl (range enum_type))
      as [[h2t modes] [|u us]];
    destruct (found (find_dpcode device [r DPCode.SWITCH] true));
    destruct (find_dpcode_integer device [r DPCode.HUMIDITY_SET] true);
    destruct (find_dpcode_enum device
                [r DPCode.FAN_SPEED_ENUM; r DPCode.WINDSPEED] true);
    destruct (found (find_dpcode device
                       [r DPCode.SHAKE; r DPCode.SWING;
                        r DPCode.SWITCH_HORIZONTAL;
                        r DPCode.SWITCH_VERTICAL] true));
    reflexivity.
Qed.

(** The same, with the loop spelled out. *)
Lemma init_hvac_attributes_resolved (enum_type : EnumTypeData) :
  mode_type = Some enum_type ->
  let unknown := filter (fun v => tbl !! v = None) (range enum_type) in
  _hvac_to_tuya self = fold_left (record_reverse tbl) (range enum_type) ∅
  /\ _attr_hvac_modes self
     = [HVACMode.OFF] ++ omap (fun v => tbl !! v) (range enum_type)
       ++ (if bool_decide (unknown = []) then [] else [fallback])
  /\ _attr_preset_modes self
     = (if bool_decide (unknown = []) then None else Some unknown).
Proof.
  intros Hmode unknown. pose proof init_hvac_attributes as H.
  rewrite Hmode in H. unfold hvac_modes_loop in H.
  rewrite hvac_modes_fold in H. cbn [app] in H. fold unknown in H.
  destruct unknown as [|u us].
  - rewrite bool_decide_eq_true_2 by reflexivity.
    rewrite app_nil_r. now simplify_eq.
  - rewrite bool_decide_eq_false_2 by discriminate.
    simplify_eq. rewrite <- app_comm_cons.
    repeat split; assumption.
Qed.

(** C4.  When a mode enum resolves, the supported modes are [OFF], the
    translations of the permitted values that have one, in the order of
    the range, and at the end the fallback mode of the category if some
    permitted value has none; every host mode so added is mapped back to
    a permitted value that translates to it.  When no mode enum resolves
    and a switch does, the supported modes are [OFF] and the fallback
    mode. *)
Theorem init_supported_hvac_modes :
  (forall enum_type, mode_type = Some enum_type ->
     _attr_hvac_modes self
     = [HVACMode.OFF] ++ omap (fun v => tbl !! v) (range enum_type)
       ++ (if bool_decide
                (filter (fun v => tbl !! v = None) (range enum_type) = [])
           then [] else [fallback])
     /\ HVACMode.OFF ∈ _attr_hvac_modes self
     /\ (forall v ha_mode,
           v ∈ range enum_type -> tbl !! v = Some ha_mode ->
           ha_mode ∈ _attr_hvac_modes self
           /\ exists v', _hvac_to_tuya self !! ha_mode = Some v'
                         /\ v' ∈ range enum_type
                         /\ tbl !! v' = Some ha_mode)
     /\ (forall v, v ∈ range enum_type -> tbl !! v = None ->
                   fallback ∈ _attr_hvac_modes self))
  /\ (mode_type = None -> found switch_code = true ->
        _attr_hvac_modes self = [HVACMode.OFF; fallback]).
Proof.
  split.
  - intros enum_type Hmode.
    destruct (init_hvac_attributes_resolved enum_type Hmode)
      as (Hrev & Hmodes & _).
    split; [exact Hmodes |]. rewrite Hmodes.
    split; [apply list_elem_of_here |]. split.
    + intros v ha_mode Hv Htr. split.
      * apply list_elem_of_further, elem_of_app. left.
        apply list_elem_of_omap. exists v. auto.
      * rewrite Hrev, record_reverse_fold.
        destruct (last_filter_Some (fun v => tbl !! v = Some ha_mode)
                    (range enum_type) v Hv Htr) as (y & Hy & Hin & Hty).
        rewrite Hy. exists y. auto.
    + intros v Hv Hnone.
      rewrite bool_decide_eq_false_2.
      * apply list_elem_of_further, elem_of_app. right.
        apply list_elem_of_here.
      * intros Hnil.
        assert (Hin : v ∈ filter (fun v => tbl !! v = None) (range enum_type))
          by (apply list_elem_of_filter; auto).
        rewrite Hnil in Hin. inversion Hin.
  - intros Hmode Hswitch. pose proof init_hvac_attributes as H.
    rewrite Hmode, Hswitch in H. now simplify_eq.
Qed.

(** C5 (as amended).  When the mode enum has values without a
    translation, the constructor stores exactly those values, in the
    order of the range, in [_attr_preset_modes]; the preset-mode list
    the adapter exposes is the [preset_modes] property, which is
    [PRESET_NONE] and [PRESET_ECO] whatever was stored. *)
Theorem init_unrecognized_modes_stored_not_exposed
    (enum_type : EnumTypeData) :
  mode_type = Some enum_type ->
  filter (fun v => tbl !! v = None) (range enum_type) <> [] ->
  _attr_preset_modes self
  = Some (filter (fun v => tbl !! v = None) (range enum_type))
  /\ preset_modes self = Some [PRESET_NONE; PRESET_ECO].
Proof.
  intros Hmode Hunknown.
  destruct (init_hvac_attributes_resolved enum_type Hmode) as (_ & _ & Hp).
  split; [| reflexivity].
  now rewrite Hp, bool_decide_eq_false_2.
Qed.
End Construction.

Lemma init_supported_hvac_modes_witness :
  (@find_dpcode_enum StandardEntity thermostat [DPCode.MODE] true
   = Some thermostat_mode
   /\ _attr_hvac_modes thermostat_entity
      = [HVACMode.OFF; HVACMode.HEAT_COOL; HVACMode.COOL; HVACMode.COOL;
         HVACMode.HEAT_COOL]
   /\ exists v', _hvac_to_tuya thermostat_entity !! HVACMode.COOL = Some v'
                 /\ v' ∈ range thermostat_mode
                 /\ TUYA_HVAC_TO_HA !! v' = Some HVACMode.COOL)
  /\ (@find_dpcode_enum StandardEntity heater [DPCode.MODE] true = None
      /\ found (@find_dpcode StandardEntity heater [DPCode.SWITCH] true) = true
      /\ _attr_hvac_modes heater_entity = [HVACMode.OFF; HVACMode.HEAT]).
Proof.
  split.
  - destruct (@init_supported_hvac_modes StandardEntity TUYA_HVAC_TO_HA
                thermostat (description_of "wk") "Standard") as [Hmode _].
    destruct (Hmode thermostat_mode eq_refl) as (Hmodes & _ & Hrev & _).
    split; [reflexivity |]. split; [exact Hmodes |].
    apply (Hrev "cold" HVACMode.COOL); [| reflexivity].
    apply list_elem_of_further, list_elem_of_here.
  - destruct (@init_supported_hvac_modes StandardEntity TUYA_HVAC_TO_HA
                heater (description_of "qn") "Standard") as [_ Hswitch].
    split; [reflexivity |]. split; [reflexivity |].
    exact (Hswitch eq_refl eq_refl).
Defined.

Lemma init_unrecognized_modes_stored_not_exposed_witness :
  @find_dpcode_enum StandardEntity thermostat [DPCode.MODE] true
  = Some thermostat_mode
  /\ filter (fun v => TUYA_HVAC_TO_HA !! v = None) (range thermostat_mode)
     <> []
  /\ _attr_preset_modes thermostat_entity = Some ["holiday"]
  /\ preset_modes thermostat_entity = Some [PRESET_NONE; PRESET_ECO].
Proof.
  split; [reflexivity |]. split; [discriminate |].
  apply (@init_unrecognized_modes_stored_not_exposed StandardEntity
           TUYA_HVAC_TO_HA thermostat (description_of "wk") "Standard"
           thermostat_mode); [reflexivity | discriminate].
Defined.

(** C5 as stated fails at the thermostat: its mode enum has the value
    ["holiday"], which has no translation, and the preset-mode list the
    adapter exposes is not that value but [PRESET_NONE] and
    [PRESET_ECO]. *)
Lemma preset_modes_not_the_unrecognized_counterexample :
  @find_dpcode_enum StandardEntity thermostat [DPCode.MODE] true
  = Some thermostat_mode
  /\ filter (fun v => TUYA_HVAC_TO_HA !! v = None) (range thermostat_mode)
     = ["holiday"]
  /\ preset_modes thermostat_entity = Some ["none"; "eco"]
  /\ preset_modes thermostat_entity <> Some ["holiday"].
Proof.
  repeat split; (reflexivity || discriminate).
Qed.

(** ** Reading the preset *)

(** C3 (as amended).  The [preset_mode] in effect is the second
    definition of the class body.  It answers [PRESET_ECO] when the
    value of the eco data point is truthy and [PRESET_NONE] otherwise,
    whether a mode data point is declared or not and whatever the mode
    value is: it is never [None] and never the raw mode value. *)
Theorem preset_mode_is_the_eco_flag `{Base : TuyaEntity}
    (self : TuyaClimateEntity) :
  let eco_mode := status (device self) !! right_dpcode self DPCode.ECO in
  preset_mode self
  = Some (if truthy_opt eco_mode then PRESET_ECO else PRESET_NONE)
  /\ (preset_mode self = Some PRESET_ECO
      \/ preset_mode self = Some PRESET_NONE)
  /\ (preset_mode self = Some PRESET_ECO <-> truthy_opt eco_mode = true).
Proof.
  intros eco_mode. unfold preset_mode. fold eco_mode.
  destruct (truthy_opt eco_mode); repeat split; auto; discriminate.
Qed.

Lemma preset_mode_is_the_eco_flag_witness :
  @preset_mode StandardEntity thermostat_entity = Some PRESET_NONE
  /\ @preset_mode StandardEntity
       (with_status (<["eco" := VBool true]> ∅) thermostat_entity)
     = Some PRESET_ECO.
Proof.
  split.
  - destruct (@preset_mode_is_the_eco_flag StandardEntity thermostat_entity)
      as (H & _ & _).
    exact H.
  - apply (@preset_mode_is_the_eco_flag StandardEntity
             (with_status (<["eco" := VBool true]> ∅) thermostat_entity)).
    reflexivity.
Defined.

(** The three cases C3 lists are the cases of the first definition,
    which the class body replaces. *)
Lemma preset_mode_shadowed_cases (tbl : gmap string HVACMode.t)
    (self : TuyaClimateEntity) :
  let mode := status (device self) !! DPCode.MODE in
  (contains (function (device self)) DPCode.MODE = false ->
     preset_mode_shadowed tbl self = None)
  /\ (forall ha_mode, translate tbl mode = Some ha_mode ->
        preset_mode_shadowed tbl self = None)
  /\ (contains (function (device self)) DPCode.MODE = true ->
      translate tbl mode = None ->
      preset_mode_shadowed tbl self = mode).
Proof.
  intros mode. unfold preset_mode_shadowed. fold mode.
  repeat split.
  - now intros ->.
  - intros ha_mode ->.
    now destruct (contains (function (device self)) DPCode.MODE).
  - now intros -> ->.
Qed.

(** C3 as stated fails twice.  The thermostat declares a mode whose
    current value ["holiday"] has no translation, and the preset is
    [PRESET_NONE], not that value; the heater declares no mode, and the
    preset is [PRESET_NONE], not [None]. *)
Lemma preset_mode_ignores_mode_counterexample :
  (contains (function (device thermostat_entity)) DPCode.MODE = true
   /\ status (device thermostat_entity) !! DPCode.MODE
      = Some (VStr "holiday")
   /\ TUYA_HVAC_TO_HA !! "holiday" = None
   /\ @preset_mode StandardEntity thermostat_entity = Some "none"
   /\ @preset_mode StandardEntity thermostat_entity <> Some "holiday")
  /\ (contains (function (device heater_entity)) DPCode.MODE = false
      /\ @preset_mode StandardEntity heater_entity = Some "none"
      /\ @preset_mode StandardEntity heater_entity <> None).
Proof.
  repeat split; (reflexivity || discriminate).
Qed.

(** ** Write path *)

Lemma neqb_OFF_spec (m : HVACMode.t) :
  HVACMode.neqb_OFF m = bool_decide (m <> HVACMode.OFF).
Proof. destruct m; reflexivity. Qed.

Lemma eqb_bool_decide (a b : string) :
  String.eqb a b = bool_decide (a = b).
Proof.
  destruct (String.eqb_spec a b) as [Heq|Hne].
  - now rewrite bool_decide_eq_true_2.
  - now rewrite bool_decide_eq_false_2.
Qed.

Lemma str_in_pair (x a b : string) :
  str_in x [a; b] = bool_decide (x = a \/ x = b).
Proof.
  unfold str_in. cbn. rewrite !eqb_bool_decide, orb_false_r.
  now rewrite bool_decide_or.
Qed.

Lemma bind_get_self {A} (k : TuyaClimateEntity -> Action A) (s : Sys) :
  (get_self ≫= k) s = k (this s) s.
Proof. reflexivity. Qed.

Lemma bind_Ok {A B} (m : Action A) (k : A -> Action B) (s s' : Sys) (a : A) :
  m s = (Ok a, s') -> (m ≫= k) s = k a s'.
Proof. intros H. unfold mbind, Action_bind. now rewrite H. Qed.

Section WritePath.
Context `{Base : TuyaEntity}.
Variable s : Sys.

Let self := this s.

(** The state after one more batch. *)
Let submitted (batch : list Command) : Sys :=
  {| this := this s; sent := sent s ++ [batch] |}.

(** C8.  [set_hvac_mode] does not fail and submits one batch: a switch
    command whose value is true exactly when the requested mode is not
    [OFF], followed by a mode command with the vendor value recorded for
    the requested mode when there is one, and by nothing when there is
    none. *)
Theorem set_hvac_mode_batch (hvac_mode : HVACMode.t) :
  set_hvac_mode hvac_mode s
  = (Ok tt,
     submitted
       ({| code := right_dpcode self DPCode.SWITCH;
           value := VBool (bool_decide (hvac_mode <> HVACMode.OFF)) |}
        :: match _hvac_to_tuya self !! hvac_mode with
           | Some tuya_mode =>
               [ {| code := right_dpcode self DPCode.MODE;
                    value := VStr tuya_mode |} ]
           | None => []
           end)).
Proof.
  unfold set_hvac_mode, submitted, self.
  rewrite bind_get_self, neqb_OFF_spec.
  now destruct (_hvac_to_tuya (this s) !! hvac_mode).
Qed.

(** C9.  [set_swing_mode] does not fail and submits one batch of four
    commands, on the shake, swing, vertical and horizontal data points in
    this order, whatever the device declares: shake and swing are true
    exactly for [SWING_ON], vertical exactly for [SWING_BOTH] and
    [SWING_VERTICAL], horizontal exactly for [SWING_BOTH] and
    [SWING_HORIZONTAL]. *)
Theorem set_swing_mode_batch (swing_mode : string) :
  set_swing_mode swing_mode s
  = (Ok tt,
     submitted
       [ {| code := right_dpcode self DPCode.SHAKE;
            value := VBool (bool_decide (swing_mode = SWING_ON)) |};
         {| code := right_dpcode self DPCode.SWING;
            value := VBool (bool_decide (swing_mode = SWING_ON)) |};
         {| code := right_dpcode self DPCode.SWITCH_VERTICAL;
            value := VBool (bool_decide (swing_mode = SWING_BOTH
                                         \/ swing_mode = SWING_VERTICAL)) |};
         {| code := right_dpcode self DPCode.SWITCH_HORIZONTAL;
            value := VBool (bool_decide (swing_mode = SWING_BOTH
                                         \/ swing_mode = SWING_HORIZONTAL)) |} ]).
Proof.
  unfold set_swing_mode, submitted, self.
  rewrite bind_get_self.
  now rewrite !str_in_pair, !eqb_bool_decide.
Qed.


(** C10.  [set_preset_mode], in its second and effective definition,
    returns without a command and without an error for a preset that is
    neither [PRESET_NONE] nor [PRESET_ECO]; for [PRESET_ECO] it submits
    one batch of one command on the eco data point with value true, and
    for [PRESET_NONE] the same with value false. *)
Theorem set_preset_mode_eco_only (preset_mode : string) :
  (preset_mode <> PRESET_NONE -> preset_mode <> PRESET_ECO ->
     set_preset_mode preset_mode s = (Ok tt, s))
  /\ (let '(r, s') := set_preset_mode PRESET_ECO s in
      r = Ok tt
      /\ sent s' = sent s ++ [[ {| code := right_dpcode self DPCode.ECO;
                                   value := VBool true |} ]])
  /\ (let '(r, s') := set_preset_mode PRESET_NONE s in
      r = Ok tt
      /\ sent s' = sent s ++ [[ {| code := right_dpcode self DPCode.ECO;
                                   value := VBool false |} ]]).
Proof.
  split; [| split; [split | split]; reflexivity].
  intros Hnone Heco. unfold set_preset_mode.
  rewrite bind_get_self. unfold preset_modes, str_in. cbn [existsb].
  rewrite !eqb_bool_decide.
  rewrite (bool_decide_eq_false_2 (preset_mode = PRESET_NONE)) by assumption.
  rewrite (bool_decide_eq_false_2 (preset_mode = PRESET_ECO)) by assumption.
  reflexivity.
Qed.
End WritePath.



Lemma set_preset_mode_eco_only_witness :
  let s := {| this := thermostat_entity; sent := [] |} in
  ("holiday" <> PRESET_NONE /\ "holiday" <> PRESET_ECO)
  /\ @set_preset_mode StandardEntity "holiday" s = (Ok tt, s).
Proof.
  cbv zeta. split; [split; discriminate |].
  apply (@set_preset_mode_eco_only StandardEntity
           {| this := thermostat_entity; sent := [] |} "holiday");
    discriminate.
Defined.

(** ** The examples of the read and write paths *)

(** A thermostat set to 22.3 degrees receives the raw value 225, and
    the raw value 225 reads back as 22.5 degrees. *)
Example thermostat_target_temperature :
  target_temperature thermostat_entity
  = Ok (Some (VFloat (S754_finite false 6333186975989760 (-48))))
  /\ float_round (S754_finite false 6333186975989760 (-48)) = Ok 22
  /\ int_truediv 45 2 = Ok (S754_finite false 6333186975989760 (-48)).
Proof.
  rewrite (target_temperature_bound thermostat_entity thermostat_temp_set
             (VInt 225) eq_refl eq_refl).
  repeat split.
Qed.

(** The division is the division of binary64 floats: a quotient beyond
    their range raises, an integer above [2 ^ 53] loses its last bit, and
    a negative scale small enough makes the divisor [0.0]. *)
Example truediv_binary64 :
  truediv (VInt (10 ^ 400)) (VInt 10) = Raise OverflowError
  /\ (v ← truediv (VInt (2 ^ 53 + 1)) (VInt 1); py_round v)
     = Ok (VInt (2 ^ 53))
  /\ scale_value {| dpcode := "temp_set"; min := 0; max := 10;
                    scale := -400; step := 1 |} (VInt 5)
     = Raise ZeroDivisionError
  /\ truediv (VInt 1) (VInt 10)
     = Ok (VFloat (S754_finite false 7205759403792794 (-56)))
  /\ truediv (VInt 0) (VInt (-5)) = Ok (VFloat (S754_zero true))
  /\ truediv (VFloat (float_of_Z 1)) (VInt (10 ^ 400)) = Raise OverflowError
  /\ truediv (VStr "25") (VInt 0) = Raise TypeError.
Proof. repeat split; vm_compute; reflexivity. Qed.

(** With the switch off the mode is [OFF] whatever the mode value; with
    the switch on ["auto"] reads as [HEAT_COOL] and an unknown value as
    the fallback mode of the category. *)
Example thermostat_hvac_mode :
  let read st :=
    @hvac_mode StandardEntity TUYA_HVAC_TO_HA
      (with_status st thermostat_entity) in
  read (<["switch" := VBool false]> (<["mode" := VStr "auto"]> ∅))
  = HVACMode.OFF
  /\ read (<["switch" := VBool true]> (<["mode" := VStr "auto"]> ∅))
     = HVACMode.HEAT_COOL
  /\ read (<["switch" := VBool true]> (<["mode" := VStr "xyz"]> ∅))
     = HVACMode.HEAT_COOL
  /\ @hvac_mode StandardEntity TUYA_HVAC_TO_HA
       (with_status (<["switch" := VBool true]> ∅) heater_entity)
     = HVACMode.HEAT.
Proof. cbv zeta. repeat split; reflexivity. Qed.

(** * Further properties of the adapter *)

(** ** Construction: what else the constructor fixes *)

(** Membership in a list of literals. *)
Ltac solve_in :=
  repeat first [apply list_elem_of_here | apply list_elem_of_further].

Ltac solve_notin :=
  let H := fresh "Hin" in
  intros H;
  repeat (apply elem_of_cons in H; destruct H as [H|H];
          [discriminate H |]);
  inversion H.

Ltac solve_nodup :=
  repeat (apply NoDup_cons_2; [solve_notin |]); apply NoDup_nil_2.

Ltac solve_subseteq :=
  let x := fresh "x" in
  let H := fresh "Hin" in
  intros x H;
  repeat (apply elem_of_cons in H; destruct H as [->|H];
          [solve_in |]);
  inversion H.

(** The case analysis of [__init__]: one case per outcome of each
    resolution. *)
Ltac init_cases device tbl r :=
  destruct (use_fahrenheit _
              (find_dpcode_integer device
                 [r DPCode.TEMP_CURRENT; r DPCode.UPPER_TEMP] false) _);
  destruct (use_fahrenheit _
              (find_dpcode_integer device [r DPCode.TEMP_SET] true) _);
  destruct (find_dpcode_integer device [r DPCode.TEMP_SET] true);
  destruct (find_dpcode_integer device [r DPCode.TEMP_SET_F] true);
  destruct (find_dpcode_enum device [r DPCode.MODE] true) as [?enum_type|];
  try match goal with
      | |- context [hvac_modes_loop tbl (range ?e)] =>
          destruct (hvac_modes_loop tbl (range e)) as [[?h2t ?modes] [|?u ?us]]
      end;
  destruct (found (find_dpcode device [r DPCode.SWITCH] true));
  destruct (find_dpcode_integer device [r DPCode.HUMIDITY_SET] true);
  destruct (find_dpcode_enum device
              [r DPCode.FAN_SPEED_ENUM; r DPCode.WINDSPEED] true);
  destruct (found (find_dpcode device
                     [r DPCode.SHAKE; r DPCode.SWING;
                      r DPCode.SWITCH_HORIZONTAL;
                      r DPCode.SWITCH_VERTICAL] true)).

Section ConstructionMore.
Context `{Base : TuyaEntity}.
Variable tbl : gmap string HVACMode.t.
Variable dev : TuyaDevice.
Variable description : TuyaClimateEntityDescription.
Variable instruction_type : string.

Let self := __init__ tbl dev description instruction_type.
Let dpcode_of := _get_right_dpcode instruction_type.
Let prefered := prefered_temperature_unit dev instruction_type.
Let current_c :=
  find_dpcode_integer dev
    [dpcode_of DPCode.TEMP_CURRENT; dpcode_of DPCode.UPPER_TEMP] false.
Let current_f :=
  find_dpcode_integer dev
    [dpcode_of DPCode.TEMP_CURRENT_F; dpcode_of DPCode.UPPER_TEMP_F] false.
Let set_c := find_dpcode_integer dev [dpcode_of DPCode.TEMP_SET] true.
Let set_f := find_dpcode_integer dev [dpcode_of DPCode.TEMP_SET_F] true.
Let mode_type := find_dpcode_enum dev [dpcode_of DPCode.MODE] true.
Let humidity_type :=
  find_dpcode_integer dev [dpcode_of DPCode.HUMIDITY_SET] true.
Let fan_type :=
  find_dpcode_enum dev
    [dpcode_of DPCode.FAN_SPEED_ENUM; dpcode_of DPCode.WINDSPEED] true.
Let swing_code :=
  find_dpcode dev
    [dpcode_of DPCode.SHAKE; dpcode_of DPCode.SWING;
     dpcode_of DPCode.SWITCH_HORIZONTAL; dpcode_of DPCode.SWITCH_VERTICAL] true.

(** The attributes of the new entity, block by block. *)
Lemma init_attributes :
  (device self = dev
   /\ entity_description self = description
   /\ _instruction_type self = instruction_type
   /\ _attr_preset_mode self = PRESET_NONE)
  /\ (_attr_temperature_unit self
      = (if use_fahrenheit prefered current_c current_f
         then TEMP_FAHRENHEIT else TEMP_CELSIUS)
      /\ _current_temperature self
         = (if use_fahrenheit prefered current_c current_f
            then current_f else current_c)
      /\ _set_temperature self
         = (if use_fahrenheit prefered set_c set_f then set_f else set_c))
  /\ (_set_humidity self = humidity_type
      /\ _attr_fan_modes self = range <$> fan_type
      /\ _attr_swing_modes self
         = (if found swing_code
            then Some ([SWING_OFF]
                       ++ (if found (find_dpcode dev
                                       [DPCode.SHAKE; DPCode.SWING] true)
                           then [SWING_ON] else [])
                       ++ (if found (find_dpcode dev
                                       [DPCode.SWITCH_HORIZONTAL] true)
                           then [SWING_HORIZONTAL] else [])
                       ++ (if found (find_dpcode dev
                                       [DPCode.SWITCH_VERTICAL] true)
                           then [SWING_VERTICAL] else []))
            else None))
  /\ _attr_supported_features self
     = (let f0 :=
          match (if use_fahrenheit prefered set_c set_f
                 then set_f else set_c) with
          | Some _ =>
              Z.lor (Z.lor 0 ClimateEntityFeature.TARGET_TEMPERATURE)
                    ClimateEntityFeature.PRESET_MODE
          | None => 0
          end in
        let f1 :=
          match mode_type with
          | Some enum_type =>
              match (hvac_modes_loop tbl (range enum_type)).2 with
              | [] => f0
              | _ :: _ => Z.lor f0 ClimateEntityFeature.PRESET_MODE
              end
          | None => f0
          end in
        let f2 :=
          match humidity_type with
          | Some _ => Z.lor f1 ClimateEntityFeature.TARGET_HUMIDITY
          | None => f1
          end in
        let f3 :=
          match fan_type with
          | Some _ => Z.lor f2 ClimateEntityFeature.FAN_MODE
          | None => f2
          end in
        if found swing_code
        then Z.lor f3 ClimateEntityFeature.SWING_MODE else f3).
Proof.
  subst self prefered current_c current_f set_c set_f mode_type
        humidity_type fan_type swing_code dpcode_of.
  unfold __init__.
  set (r := _get_right_dpcode instruction_type).
  init_cases dev tbl r; repeat split; reflexivity.
Qed.
Lemma init_preset_modes :
  _attr_preset_modes self
  = match mode_type with
    | Some enum_type =>
        match (hvac_modes_loop tbl (range enum_type)).2 with
        | [] => None
        | u :: us => Some (u :: us)
        end
    | None => None
    end.
Proof.
  pose proof (init_hvac_attributes tbl dev description instruction_type)
    as Hmode.
  fold self in Hmode. clearbody self. subst mode_type dpcode_of. revert Hmode.
  destruct (find_dpcode_enum dev
              [_get_right_dpcode instruction_type DPCode.MODE] true)
    as [enum_type|].
  - destruct (hvac_modes_loop tbl (range enum_type)) as [[h2t modes] [|u us]];
      intros Hmode; cbv beta iota in Hmode;
      injection Hmode as _ _ Hp; rewrite Hp; reflexivity.
  - destruct (found _);
      intros Hmode; injection Hmode as _ _ Hp; rewrite Hp; reflexivity.
Qed.

(** X1.  The feature flags follow the bindings: target temperature is
    flagged exactly when a target-temperature binding was chosen, target
    humidity exactly when the humidity target resolved, fan mode exactly
    when a fan-speed enum resolved, swing mode exactly when one of the
    four swing data points resolved, and preset mode exactly when there
    is a target-temperature binding or unrecognized mode values were
    stored; no other flag is set. *)
Theorem init_features_follow_bindings :
  let features := _attr_supported_features self in
  supports features ClimateEntityFeature.TARGET_TEMPERATURE
  = bool_decide (is_Some (_set_temperature self))
  /\ supports features ClimateEntityFeature.TARGET_HUMIDITY
     = bool_decide (is_Some (_set_humidity self))
  /\ supports features ClimateEntityFeature.FAN_MODE
     = bool_decide (is_Some (_attr_fan_modes self))
  /\ supports features ClimateEntityFeature.SWING_MODE
     = bool_decide (is_Some (_attr_swing_modes self))
  /\ supports features ClimateEntityFeature.PRESET_MODE
     = bool_decide (is_Some (_set_temperature self)
                    \/ is_Some (_attr_preset_modes self))
  /\ Z.land features (Z.lnot 61) = 0.
Proof.
  destruct init_attributes
    as (_ & (_ & _ & Hset) & (Hhum & Hfan & Hswing) & Hfeat).
  cbv zeta. rewrite Hfeat, Hset, Hhum, Hfan, Hswing, init_preset_modes.
  clear Hfeat Hset Hhum Hfan Hswing. clearbody self.
  destruct (if use_fahrenheit prefered set_c set_f then set_f else set_c);
    destruct mode_type as [enum_type|];
    try destruct (hvac_modes_loop tbl (range enum_type)) as [[h2t modes] [|u us]];
    destruct humidity_type; destruct fan_type; destruct (found swing_code);
    repeat split; reflexivity.
Qed.
Lemma use_fahrenheit_spec (p : option TemperatureUnit)
    (c f : option IntegerTypeData) :
  use_fahrenheit p c f = true
  <-> is_Some f /\ (p = Some TEMP_FAHRENHEIT
                    \/ (p = Some TEMP_CELSIUS /\ c = None)).
Proof.
  unfold use_fahrenheit. destruct f as [t|].
  - rewrite orb_true_iff, andb_true_iff, negb_true_iff,
      !bool_decide_eq_true, bool_decide_eq_false.
    rewrite <- eq_None_not_Some. intuition eauto.
  - split; [discriminate | intros [[t Ht] _]; discriminate].
Qed.

(** X2.  Without a preferred unit, that is, unless the snapshot holds
    both the Celsius and the Fahrenheit data point of the current or of
    the target temperature, the constructor binds the Celsius data
    points only and reports Celsius: a Fahrenheit data point that
    resolves is left unused. *)
Theorem init_celsius_without_preference :
  prefered = None ->
  _attr_temperature_unit self = TEMP_CELSIUS
  /\ _current_temperature self = current_c
  /\ _set_temperature self = set_c.
Proof.
  intros Hp. destruct init_attributes as (_ & (Hu & Hc & Hs) & _).
  rewrite Hu, Hc, Hs, Hp.
  assert (Hno : forall c f, use_fahrenheit None c f = false).
  { intros c [t|]; reflexivity. }
  now rewrite !Hno.
Qed.

(** X3.  With a preferred unit each temperature binding is the data
    point of that unit when it resolves and the data point of the other
    unit when it does not.  The unit the entity reports follows the
    current temperature alone: it is Fahrenheit exactly when the
    Fahrenheit data point of the current temperature resolves and
    either Fahrenheit is preferred or the Celsius one does not resolve,
    whatever the target-temperature binding is. *)
Theorem init_temperature_with_preference (unit : TemperatureUnit) :
  prefered = Some unit ->
  let pick (c f : option IntegerTypeData) :=
    match unit with
    | TEMP_FAHRENHEIT => match f with Some _ => f | None => c end
    | TEMP_CELSIUS => match c with Some _ => c | None => f end
    end in
  _current_temperature self = pick current_c current_f
  /\ _set_temperature self = pick set_c set_f
  /\ (_attr_temperature_unit self = TEMP_FAHRENHEIT
      <-> is_Some current_f
          /\ (unit = TEMP_FAHRENHEIT \/ current_c = None)).
Proof.
  intros Hp. destruct init_attributes as (_ & (Hu & Hc & Hs) & _).
  rewrite Hu, Hc, Hs, Hp. clear Hu Hc Hs. clearbody self.
  split; [| split].
  - destruct unit, current_c, current_f; reflexivity.
  - destruct unit, set_c, set_f; reflexivity.
  - pose proof (use_fahrenheit_spec (Some unit) current_c current_f) as Hspec.
    destruct (use_fahrenheit (Some unit) current_c current_f).
    + split; [intros _ | reflexivity].
      destruct (proj1 Hspec eq_refl) as [Hf [Hu | [Hu Hc]]];
        split; auto; left; congruence.
    + split; [discriminate |]. intros [Hf Hor].
      enough (false = true) by discriminate. apply Hspec.
      split; [exact Hf |].
      destruct Hor as [-> | Hc]; [now left |].
      destruct unit; [right | left]; auto.
Qed.

(** X4.  The list of swing modes, when the constructor sets one, starts
    with [SWING_OFF], has no repetition, and holds nothing but
    [SWING_OFF], [SWING_ON], [SWING_HORIZONTAL] and [SWING_VERTICAL]:
    [SWING_BOTH], which the getter can return, is never listed.  The
    list is set exactly when one of the four swing data points
    resolves. *)
Theorem init_swing_modes_never_both :
  (forall modes, _attr_swing_modes self = Some modes ->
     head modes = Some SWING_OFF
     /\ NoDup modes
     /\ modes ⊆ [SWING_OFF; SWING_ON; SWING_HORIZONTAL; SWING_VERTICAL]
     /\ SWING_BOTH ∉ modes)
  /\ (is_Some (_attr_swing_modes self) <-> found swing_code = true).
Proof.
  destruct init_attributes as (_ & _ & (_ & _ & Hswing) & _).
  rewrite Hswing. clear Hswing. clearbody self.
  destruct (found swing_code).
  - split; [| split; eauto].
    intros modes Hm. injection Hm as <-.
    destruct (found (find_dpcode dev [DPCode.SHAKE; DPCode.SWING] true)),
      (found (find_dpcode dev [DPCode.SWITCH_HORIZONTAL] true)),
      (found (find_dpcode dev [DPCode.SWITCH_VERTICAL] true));
      cbn; (split; [reflexivity |]);
      unfold SWING_OFF, SWING_ON, SWING_HORIZONTAL, SWING_VERTICAL, SWING_BOTH;
      (split; [solve_nodup | split; [solve_subseteq | solve_notin]]).
  - split; [discriminate |].
    split; [intros [? ?]; discriminate | discriminate].
Qed.
End ConstructionMore.

(** ** The HVAC mode across construction, write and read *)

(** The getter on a refreshed snapshot. *)
Lemma hvac_mode_live `{Base : TuyaEntity} (tbl : gmap string HVACMode.t)
    (e : TuyaClimateEntity) (st : gmap string Value) :
  hvac_mode tbl (with_status st e)
  = if negb (truthy (default (VBool true) (st !! right_dpcode e DPCode.SWITCH)))
    then HVACMode.OFF
    else if negb (contains (function (device e)) (right_dpcode e DPCode.MODE))
    then
      if truthy (default (VBool false) (st !! right_dpcode e DPCode.SWITCH))
      then switch_only_hvac_mode (entity_description e)
      else HVACMode.OFF
    else
      match translate tbl (st !! right_dpcode e DPCode.MODE) with
      | Some ha_mode => ha_mode
      | None =>
          if truthy (default (VBool false) (st !! DPCode.SWITCH))
          then switch_only_hvac_mode (entity_description e)
          else HVACMode.OFF
      end.
Proof. reflexivity. Qed.

(** What [set_hvac_mode] submits. *)
Lemma set_hvac_mode_run `{Base : TuyaEntity} (s : Sys) (m : HVACMode.t) :
  set_hvac_mode m s
  = (Ok tt,
     {| this := this s;
        sent := sent s
                ++ [ {| code := right_dpcode (this s) DPCode.SWITCH;
                        value := VBool (HVACMode.neqb_OFF m) |}
                     :: match _hvac_to_tuya (this s) !! m with
                        | Some tuya_mode =>
                            [ {| code := right_dpcode (this s) DPCode.MODE;
                                 value := VStr tuya_mode |} ]
                        | None => []
                        end ] |}).
Proof.
  unfold set_hvac_mode. rewrite bind_get_self.
  now destruct (_hvac_to_tuya (this s) !! m).
Qed.

Section HvacConsistency.
Context `{Base : TuyaEntity}.
Variable tbl : gmap string HVACMode.t.
Variable dev : TuyaDevice.
Variable description : TuyaClimateEntityDescription.
Variable instruction_type : string.

Let self := __init__ tbl dev description instruction_type.
Let dpcode_of := _get_right_dpcode instruction_type.
Let mode_type := find_dpcode_enum dev [dpcode_of DPCode.MODE] true.
Let switch_code := find_dpcode dev [dpcode_of DPCode.SWITCH] true.

Lemma init_right_dpcode : right_dpcode self = dpcode_of.
Proof.
  unfold right_dpcode.
  destruct (init_attributes tbl dev description instruction_type)
    as ((_ & _ & Hit & _) & _).
  fold self in Hit. now rewrite Hit.
Qed.

(** The reverse mapping holds nothing but permitted values, each under
    the host mode it translates to. *)
Lemma init_hvac_to_tuya_sound (m : HVACMode.t) (v : string) :
  _hvac_to_tuya self !! m = Some v ->
  exists enum_type,
    mode_type = Some enum_type /\ v ∈ range enum_type /\ tbl !! v = Some m.
Proof.
  intros Hv. destruct mode_type as [enum_type|] eqn:Hmode.
  - exists enum_type. split; [reflexivity |].
    destruct (init_hvac_attributes_resolved tbl dev description
                instruction_type enum_type Hmode) as (Hrev & _).
    fold self in Hrev. rewrite Hrev, record_reverse_fold in Hv.
    destruct (last (filter (fun v => tbl !! v = Some m) (range enum_type)))
      as [w|] eqn:Hlast; [| now rewrite lookup_empty in Hv].
    injection Hv as ->.
    apply last_Some_elem_of, list_elem_of_filter in Hlast. tauto.
  - pose proof (init_hvac_attributes tbl dev description instruction_type)
      as H.
    fold self dpcode_of mode_type in H. rewrite Hmode in H.
    destruct (found _) in H; injection H as Hh _ _;
      rewrite Hh, lookup_empty in Hv; discriminate.
Qed.

(** X5.  On an entity the constructor built, [set_hvac_mode] submits a
    batch whose commands after the first are mode commands, each with a
    value that the mode enum of the device permits and that the table
    translates to the requested host mode.  A device without a mode enum
    is never sent a mode command. *)
Theorem set_hvac_mode_sends_permitted_value
    (sent0 : list (list Command)) (hvac_mode : HVACMode.t) :
  exists batch,
    set_hvac_mode hvac_mode {| this := self; sent := sent0 |}
    = (Ok tt, {| this := self; sent := sent0 ++ [batch] |})
    /\ (forall c, c ∈ tail batch ->
          code c = dpcode_of DPCode.MODE
          /\ exists enum_type v,
               mode_type = Some enum_type /\ value c = VStr v
               /\ v ∈ range enum_type /\ tbl !! v = Some hvac_mode)
    /\ (mode_type = None -> length batch = 1%nat).
Proof.
  rewrite set_hvac_mode_run. cbn [this sent]. eexists. split; [reflexivity |].
  cbn [tail]. rewrite init_right_dpcode.
  destruct (_hvac_to_tuya self !! hvac_mode) as [v|] eqn:Hv.
  - destruct (init_hvac_to_tuya_sound hvac_mode v Hv)
      as (enum_type & Hmode & Hin & Htr).
    split.
    + intros c Hc. apply list_elem_of_singleton in Hc as ->.
      split; [reflexivity |]. exists enum_type, v. auto.
    + rewrite Hmode. discriminate.
  - split; [| reflexivity]. intros c Hc. inversion Hc.
Qed.

(** X6.  A mode that was set reads back.  When the snapshot shows the
    batch [set_hvac_mode] submitted, then the getter answers the
    requested mode, provided the request is [OFF], or the mode has a
    recorded vendor value and the mode data point is declared writable
    by the device. *)
Theorem hvac_mode_reads_back (sent0 : list (list Command))
    (m : HVACMode.t) (batch : list Command) (st : gmap string Value) :
  set_hvac_mode m {| this := self; sent := sent0 |}
  = (Ok tt, {| this := self; sent := sent0 ++ [batch] |}) ->
  reflects st batch ->
  m = HVACMode.OFF
  \/ (is_Some (_hvac_to_tuya self !! m)
      /\ contains (function dev) (dpcode_of DPCode.MODE) = true) ->
  hvac_mode tbl (with_status st self) = m.
Proof.
  rewrite set_hvac_mode_run. cbn [this sent]. intros Hrun Hst Hcase.
  injection Hrun as Hrun. apply app_inv_head in Hrun.
  injection Hrun as <-.
  rewrite init_right_dpcode in Hst.
  apply Forall_cons in Hst as [Hswitch Hrest]. cbn in Hswitch.
  rewrite hvac_mode_live, init_right_dpcode, Hswitch.
  destruct (init_attributes tbl dev description instruction_type)
    as ((Hdev & _) & _).
  fold self in Hdev. rewrite Hdev.
  destruct m; cbn; try reflexivity;
    (destruct Hcase as [Hoff | [[v Hv] Hdecl]]; [discriminate Hoff |]);
    rewrite Hv in Hrest; apply Forall_cons in Hrest as [Hmode _];
    cbn in Hmode; rewrite Hdecl, Hmode; cbn;
    destruct (init_hvac_to_tuya_sound _ v Hv) as (enum_type & _ & _ & Htr);
    now rewrite Htr.
Qed.

(** X7.  As long as the translation table the getter reads is the table
    the constructor read (it is no longer once [async_added_to_hass]
    patched it), the mode the getter reports is one of the supported
    modes of the entity, whatever the switch is: when the mode enum
    resolved, the mode data point is declared writable and the snapshot
    holds a permitted value for it; and when no mode enum resolved, a
    switch did, and the mode data point is not declared writable. *)
Theorem hvac_mode_is_supported (st : gmap string Value) :
  (forall enum_type v,
     mode_type = Some enum_type ->
     contains (function dev) (dpcode_of DPCode.MODE) = true ->
     st !! dpcode_of DPCode.MODE = Some (VStr v) ->
     v ∈ range enum_type ->
     hvac_mode tbl (with_status st self) ∈ _attr_hvac_modes self)
  /\ (mode_type = None -> found switch_code = true ->
      contains (function dev) (dpcode_of DPCode.MODE) = false ->
      hvac_mode tbl (with_status st self) ∈ _attr_hvac_modes self).
Proof.
  destruct (init_attributes tbl dev description instruction_type)
    as ((Hdev & Hdescr & _) & _).
  fold self in Hdev, Hdescr.
  split.
  - intros enum_type v Hmode Hdecl Hval Hin.
    destruct (init_hvac_attributes_resolved tbl dev description
                instruction_type enum_type Hmode) as (_ & Hmodes & _).
    fold self in Hmodes. rewrite Hmodes.
    assert (Hfallback :
              tbl !! v = None ->
              switch_only_hvac_mode description
              ∈ [HVACMode.OFF] ++ omap (fun v => tbl !! v) (range enum_type)
                ++ (if bool_decide
                         (filter (fun v => tbl !! v = None) (range enum_type)
                          = [])
                    then [] else [switch_only_hvac_mode description])).
    { intros Hnone. rewrite bool_decide_eq_false_2.
      - rewrite !elem_of_app. right. right. apply list_elem_of_here.
      - intros Hnil.
        assert (Hv : v ∈ filter (fun v => tbl !! v = None) (range enum_type))
          by (apply list_elem_of_filter; auto).
        rewrite Hnil in Hv. inversion Hv. }
    rewrite hvac_mode_live, init_right_dpcode, Hdev, Hdecl, Hval, Hdescr.
    cbn [negb translate].
    destruct (negb _); [apply list_elem_of_here |].
    destruct (tbl !! v) as [ha_mode|] eqn:Htr.
    + apply list_elem_of_further, elem_of_app. left.
      apply list_elem_of_omap. exists v. auto.
    + destruct (truthy _); [auto | apply list_elem_of_here].
  - intros Hmode Hswitch Hdecl.
    pose proof (init_hvac_attributes tbl dev description instruction_type)
      as H.
    fold self dpcode_of mode_type switch_code in H.
    rewrite Hmode, Hswitch in H. injection H as _ Hmodes _.
    rewrite Hmodes, hvac_mode_live, init_right_dpcode, Hdev, Hdecl, Hdescr.
    cbn [negb].
    destruct (negb _); [apply list_elem_of_here |].
    destruct (truthy _);
      [apply list_elem_of_further |]; apply list_elem_of_here.
Qed.
End HvacConsistency.

(** ** Turning on and off *)

Section Power.
Context `{Base : TuyaEntity}.
Variable s : Sys.

Let self := this s.
Let switch := right_dpcode self DPCode.SWITCH.
Let switch_declared := contains (function (device self)) switch.

(** X8.  [turn_on] never raises and submits at most one batch; a batch
    it submits starts with the command that sets the switch to true.
    With the switch declared writable the batch is that command alone,
    so the current mode is kept.  Nothing is submitted exactly when the
    switch is not declared writable and none of [HEAT_COOL], [HEAT] and
    [COOL] is a supported mode. *)
Theorem turn_on_effect :
  exists out,
    turn_on s = (Ok tt, {| this := self; sent := sent s ++ out |})
    /\ (length out <= 1)%nat
    /\ (forall batch, batch ∈ out ->
          head batch = Some {| code := switch; value := VBool true |})
    /\ (switch_declared = true ->
        out = [[ {| code := switch; value := VBool true |} ]])
    /\ (out = []
        <-> switch_declared = false
            /\ (HVACMode.HEAT_COOL ∉ _attr_hvac_modes self)
            /\ (HVACMode.HEAT ∉ _attr_hvac_modes self)
            /\ (HVACMode.COOL ∉ _attr_hvac_modes self)).
Proof.
  subst switch_declared switch self. destruct s as [e out0].
  unfold turn_on. rewrite bind_get_self. cbn [this sent].
  destruct (contains (function (device e)) (right_dpcode e DPCode.SWITCH)).
  - eexists. split; [reflexivity |].
    split; [cbn; lia |]. split.
    + intros batch Hb. apply list_elem_of_singleton in Hb as ->. reflexivity.
    + split; [reflexivity |].
      split; [discriminate | intros [Hf _]; discriminate].
  - cbn [List.find].
    destruct (decide (HVACMode.HEAT_COOL ∈ _attr_hvac_modes e)) as [H1|H1];
      [| destruct (decide (HVACMode.HEAT ∈ _attr_hvac_modes e)) as [H2|H2];
         [| destruct (decide (HVACMode.COOL ∈ _attr_hvac_modes e)) as [H3|H3]]];
      rewrite ?(bool_decide_eq_false_2 _ H1), ?(bool_decide_eq_false_2 _ H2),
        ?(bool_decide_eq_false_2 _ H3),
        ?(bool_decide_eq_true_2 _ H1), ?(bool_decide_eq_true_2 _ H2),
        ?(bool_decide_eq_true_2 _ H3);
      try (rewrite set_hvac_mode_run; cbn [this sent HVACMode.neqb_OFF];
           eexists; split; [reflexivity |];
           split; [cbn; lia |]; split;
           [ intros batch Hb; apply list_elem_of_singleton in Hb as ->;
             reflexivity
           | split; [discriminate |];
             split; [discriminate | intros (_ & ? & ? & ?); contradiction] ]).
    exists []. rewrite app_nil_r. split; [reflexivity |].
    split; [cbn; lia |]. split; [intros batch Hb; inversion Hb |].
    split; [discriminate |]. split; auto.
Qed.

(** X9.  [turn_off] never raises and submits at most one batch; a batch
    it submits starts with the command that sets the switch to false,
    and is that command alone when the switch is declared writable.
    Nothing is submitted exactly when the switch is not declared
    writable and [OFF] is not a supported mode. *)
Theorem turn_off_effect :
  exists out,
    turn_off s = (Ok tt, {| this := self; sent := sent s ++ out |})
    /\ (length out <= 1)%nat
    /\ (forall batch, batch ∈ out ->
          head batch = Some {| code := switch; value := VBool false |})
    /\ (switch_declared = true ->
        out = [[ {| code := switch; value := VBool false |} ]])
    /\ (out = []
        <-> switch_declared = false
            /\ (HVACMode.OFF ∉ _attr_hvac_modes self)).
Proof.
  subst switch_declared switch self. destruct s as [e out0].
  unfold turn_off. rewrite bind_get_self. cbn [this sent].
  destruct (contains (function (device e)) (right_dpcode e DPCode.SWITCH)).
  - eexists. split; [reflexivity |].
    split; [cbn; lia |]. split.
    + intros batch Hb. apply list_elem_of_singleton in Hb as ->. reflexivity.
    + split; [reflexivity |].
      split; [discriminate | intros [Hf _]; discriminate].
  - destruct (decide (HVACMode.OFF ∈ _attr_hvac_modes e)) as [H1|H1].
    + rewrite (bool_decide_eq_true_2 _ H1), set_hvac_mode_run.
      cbn [this sent HVACMode.neqb_OFF].
      eexists. split; [reflexivity |].
      split; [cbn; lia |]. split.
      * intros batch Hb. apply list_elem_of_singleton in Hb as ->.
        reflexivity.
      * split; [discriminate |].
        split; [discriminate | intros [_ ?]; contradiction].
    + rewrite (bool_decide_eq_false_2 _ H1).
      exists []. rewrite app_nil_r. split; [reflexivity |].
      split; [cbn; lia |]. split; [intros batch Hb; inversion Hb |].
      split; [discriminate |]. split; auto.
Qed.
End Power.

(** The host modes the module's table translates to. *)
Lemma TUYA_HVAC_TO_HA_values (v : string) (m : HVACMode.t) :
  TUYA_HVAC_TO_HA !! v = Some m ->
  m ∈ [HVACMode.HEAT_COOL; HVACMode.COOL; HVACMode.HEAT; HVACMode.DRY;
       HVACMode.FAN_ONLY].
Proof.
  unfold TUYA_HVAC_TO_HA. rewrite !lookup_insert_Some, lookup_empty.
  intros H.
  repeat (destruct H as [[_ <-] | [_ H]]; [solve_in |]).
  discriminate H.
Qed.

Lemma TUYA_HVAC_TO_HA_never_OFF (v : string) :
  TUYA_HVAC_TO_HA !! v <> Some HVACMode.OFF.
Proof.
  intros H. apply TUYA_HVAC_TO_HA_values in H. revert H. solve_notin.
Qed.

(** X10.  Switching off sends no mode command: on an entity built with
    a table that translates no vendor value to [OFF], as the table of
    the module is, [set_hvac_mode] with [OFF] submits the single command
    that sets the switch to false. *)
Theorem set_hvac_mode_off_switch_only `{Base : TuyaEntity}
    (tbl : gmap string HVACMode.t) (dev : TuyaDevice)
    (description : TuyaClimateEntityDescription) (instruction_type : string)
    (sent0 : list (list Command)) :
  (forall v, tbl !! v <> Some HVACMode.OFF) ->
  let self := __init__ tbl dev description instruction_type in
  set_hvac_mode HVACMode.OFF {| this := self; sent := sent0 |}
  = (Ok tt,
     {| this := self;
        sent := sent0
                ++ [[ {| code := _get_right_dpcode instruction_type
                                   DPCode.SWITCH;
                         value := VBool false |} ]] |}).
Proof.
  intros Hoff self. rewrite set_hvac_mode_run. cbn [this sent].
  unfold self at 2. rewrite init_right_dpcode.
  destruct (_hvac_to_tuya self !! HVACMode.OFF) as [v|] eqn:Hv;
    [| reflexivity].
  destruct (init_hvac_to_tuya_sound tbl dev description instruction_type
              HVACMode.OFF v Hv) as (_ & _ & _ & Htr).
  now apply Hoff in Htr.
Qed.

Lemma set_hvac_mode_off_switch_only_witness :
  (forall v, TUYA_HVAC_TO_HA !! v <> Some HVACMode.OFF)
  /\ @set_hvac_mode StandardEntity HVACMode.OFF
       {| this := thermostat_entity; sent := [] |}
     = (Ok tt,
        {| this := thermostat_entity;
           sent := [[ {| code := "switch"; value := VBool false |} ]] |}).
Proof.
  split; [exact TUYA_HVAC_TO_HA_never_OFF |].
  apply (@set_hvac_mode_off_switch_only StandardEntity TUYA_HVAC_TO_HA
           thermostat (description_of "wk") "Standard" []).
  exact TUYA_HVAC_TO_HA_never_OFF.
Defined.

(** ** The write path as a whole *)

Lemma same_bindings_refl (e : TuyaClimateEntity) : same_bindings e e.
Proof. unfold same_bindings. repeat split. Qed.

Lemma same_bindings_trans (e1 e2 e3 : TuyaClimateEntity) :
  same_bindings e1 e2 -> same_bindings e2 e3 -> same_bindings e1 e3.
Proof.
  unfold same_bindings. intros H12 H23.
  repeat match goal with H : _ /\ _ |- _ => destruct H end.
  repeat split; congruence.
Qed.

Section Calls.
Context `{Base : TuyaEntity}.

Lemma turn_on_appends (s : Sys) :
  exists out,
    turn_on s = (Ok tt, {| this := this s; sent := sent s ++ out |})
    /\ (length out <= 1)%nat.
Proof.
  destruct s as [e out0]. unfold turn_on. rewrite bind_get_self.
  cbn [this sent].
  destruct (contains (function (device e)) (right_dpcode e DPCode.SWITCH)).
  - eexists. split; [reflexivity | cbn; lia].
  - destruct (List.find _ _) as [m|].
    + rewrite set_hvac_mode_run. eexists. split; [reflexivity | cbn; lia].
    + exists []. rewrite app_nil_r. split; [reflexivity | cbn; lia].
Qed.

Lemma turn_off_appends (s : Sys) :
  exists out,
    turn_off s = (Ok tt, {| this := this s; sent := sent s ++ out |})
    /\ (length out <= 1)%nat.
Proof.
  destruct s as [e out0]. unfold turn_off. rewrite bind_get_self.
  cbn [this sent].
  destruct (contains (function (device e)) (right_dpcode e DPCode.SWITCH)).
  - eexists. split; [reflexivity | cbn; lia].
  - destruct (bool_decide _).
    + rewrite set_hvac_mode_run. eexists. split; [reflexivity | cbn; lia].
    + exists []. rewrite app_nil_r. split; [reflexivity | cbn; lia].
Qed.

(** One call: the state after it, and what is known when it raises. *)
Lemma call_effect (c : Call) (s : Sys) :
  exists out,
    sent (call c s).2 = sent s ++ out
    /\ (length out <= 1)%nat
    /\ same_bindings (this s) (this (call c s).2)
    /\ (forall e, (call c s).1 = Raise e ->
          (call c s).2 = s
          /\ ((exists msg, e = RuntimeError msg)
              /\ ((exists h, c = CallSetHumidity h)
                  /\ _set_humidity (this s) = None
                  \/ (exists kw, c = CallSetTemperature kw)
                     /\ _set_temperature (this s) = None)
              \/ e = KeyError "temperature"
                 /\ exists kw, c = CallSetTemperature kw
                               /\ kw !! "temperature" = None)).
Proof.
  destruct s as [e0 out0].
  destruct c as [m | p | f | h | sw | kw | | ]; cbn [call].
  - rewrite set_hvac_mode_run. eexists. cbn.
    split; [reflexivity |]. split; [cbn; lia |].
    split; [apply same_bindings_refl | discriminate].
  - unfold set_preset_mode. rewrite bind_get_self.
    unfold preset_modes, str_in. cbn [existsb this].
    destruct (String.eqb p PRESET_NONE || (String.eqb p PRESET_ECO || false)).
    + eexists. cbn. split; [reflexivity |]. split; [cbn; lia |].
      split; [unfold same_bindings; repeat split | discriminate].
    + exists []. cbn. rewrite app_nil_r. split; [reflexivity |].
      split; [cbn; lia |]. split; [apply same_bindings_refl | discriminate].
  - unfold set_fan_mode. rewrite bind_get_self. eexists. cbn.
    split; [reflexivity |]. split; [cbn; lia |].
    split; [apply same_bindings_refl | discriminate].
  - unfold set_humidity. rewrite bind_get_self. cbn [this].
    destruct (_set_humidity e0) as [t|] eqn:Hb.
    + eexists. cbn. split; [reflexivity |]. split; [cbn; lia |].
      split; [apply same_bindings_refl | discriminate].
    + exists []. cbn. rewrite app_nil_r. split; [reflexivity |].
      split; [cbn; lia |]. split; [apply same_bindings_refl |].
      intros e He. injection He as <-. split; [reflexivity |].
      left. split; [eauto |]. left. split; [eauto | first [exact Hb | reflexivity]].
  - unfold set_swing_mode. rewrite bind_get_self. eexists. cbn.
    split; [reflexivity |]. split; [cbn; lia |].
    split; [apply same_bindings_refl | discriminate].
  - unfold set_temperature. rewrite bind_get_self. cbn [this].
    destruct (_set_temperature e0) as [t|] eqn:Hb.
    + unfold getitem. destruct (kw !! "temperature") as [x|] eqn:Hkw.
      * eexists. cbn. split; [reflexivity |]. split; [cbn; lia |].
        split; [apply same_bindings_refl | discriminate].
      * exists []. cbn. rewrite app_nil_r. split; [reflexivity |].
        split; [cbn; lia |]. split; [apply same_bindings_refl |].
        intros e He. injection He as <-. split; [reflexivity |].
        right. split; [reflexivity |]. eauto.
    + exists []. cbn. rewrite app_nil_r. split; [reflexivity |].
      split; [cbn; lia |]. split; [apply same_bindings_refl |].
      intros e He. injection He as <-. split; [reflexivity |].
      left. split; [eauto |]. right. split; [eauto | first [exact Hb | reflexivity]].
  - destruct (turn_on_appends {| this := e0; sent := out0 |})
      as (out & Hrun & Hlen).
    rewrite Hrun. exists out. cbn.
    split; [reflexivity |]. split; [exact Hlen |].
    split; [apply same_bindings_refl | discriminate].
  - destruct (turn_off_appends {| this := e0; sent := out0 |})
      as (out & Hrun & Hlen).
    rewrite Hrun. exists out. cbn.
    split; [reflexivity |]. split; [exact Hlen |].
    split; [apply same_bindings_refl | discriminate].
Qed.

(** X11.  The write path only appends.  After any sequence of calls of
    the setters and of [turn_on] and [turn_off], the batches submitted
    before are still there in their order, at most one batch was added
    per call, and the entity differs from the one before at most in
    [_attr_preset_mode]: no call changes the device, a binding, the
    reverse mapping or a list of supported modes. *)
Theorem calls_append_only (cs : list Call) (s : Sys) :
  exists out,
    sent (calls cs s).2 = sent s ++ out
    /\ (length out <= length cs)%nat
    /\ same_bindings (this s) (this (calls cs s).2).
Proof.
  revert s. induction cs as [|c cs IH]; intros s.
  - exists []. cbn. rewrite app_nil_r.
    split; [reflexivity |]. split; [lia | apply same_bindings_refl].
  - destruct (call_effect c s) as (out1 & Hsent1 & Hlen1 & Hsame1 & _).
    cbn [calls]. unfold mbind, Action_bind.
    destruct (call c s) as [[[]|e] s1] eqn:Hc; cbn [fst snd] in *.
    + destruct (IH s1) as (out2 & Hsent2 & Hlen2 & Hsame2).
      exists (out1 ++ out2). rewrite Hsent2, Hsent1, <- app_assoc.
      split; [reflexivity |]. split.
      * rewrite length_app. cbn [length]. lia.
      * eapply same_bindings_trans; eassumption.
    + exists out1. split; [exact Hsent1 |]. split; [cbn [length]; lia |].
      exact Hsame1.
Qed.

End Calls.


(** ** Swing, fan and preset: what is written reads back *)

Lemma reflects_cons (st : gmap string Value) (c : Command)
    (batch : list Command) :
  reflects st (c :: batch)
  <-> st !! code c = Some (value c) /\ reflects st batch.
Proof.
  unfold reflects.
  apply (Forall_cons (fun c : Command => st !! code c = Some (value c))).
Qed.

Section ReadBack.
Context `{Base : TuyaEntity}.
Variable s : Sys.
Variable st : gmap string Value.

Let self := this s.

(** The swing getter on a refreshed snapshot. *)
Lemma swing_mode_live :
  swing_mode (with_status st self)
  = if truthy_opt (st !! right_dpcode self DPCode.SHAKE)
       || truthy_opt (st !! right_dpcode self DPCode.SWING)
    then SWING_ON
    else
      let horizontal :=
        truthy_opt (st !! right_dpcode self DPCode.SWITCH_HORIZONTAL) in
      let vertical :=
        truthy_opt (st !! right_dpcode self DPCode.SWITCH_VERTICAL) in
      if horizontal && vertical then SWING_BOTH
      else if horizontal then SWING_HORIZONTAL
      else if vertical then SWING_VERTICAL
      else SWING_OFF.
Proof.
  unfold swing_mode. cbn [existsb]. rewrite orb_false_r. reflexivity.
Qed.

(** X13.  The swing getter answers one of the five swing modes:
    [SWING_ON] exactly when the shake or the swing data point is
    truthy, whatever the two axes are; otherwise [SWING_BOTH],
    [SWING_HORIZONTAL] or [SWING_VERTICAL] exactly when both axes, the
    horizontal axis alone or the vertical axis alone is truthy; and
    [SWING_OFF] exactly when none of the four data points is truthy,
    one that is absent from the snapshot counting as not truthy. *)
Theorem swing_mode_table :
  let shake := truthy_opt (st !! right_dpcode self DPCode.SHAKE) in
  let swing := truthy_opt (st !! right_dpcode self DPCode.SWING) in
  let horizontal :=
    truthy_opt (st !! right_dpcode self DPCode.SWITCH_HORIZONTAL) in
  let vertical :=
    truthy_opt (st !! right_dpcode self DPCode.SWITCH_VERTICAL) in
  let answer := swing_mode (with_status st self) in
  answer ∈ [SWING_ON; SWING_BOTH; SWING_HORIZONTAL; SWING_VERTICAL; SWING_OFF]
  /\ (answer = SWING_ON <-> shake || swing = true)
  /\ (answer = SWING_BOTH
      <-> shake || swing = false /\ horizontal = true /\ vertical = true)
  /\ (answer = SWING_HORIZONTAL
      <-> shake || swing = false /\ horizontal = true /\ vertical = false)
  /\ (answer = SWING_VERTICAL
      <-> shake || swing = false /\ horizontal = false /\ vertical = true)
  /\ (answer = SWING_OFF
      <-> shake || swing = false /\ horizontal = false /\ vertical = false).
Proof.
  cbv zeta. rewrite swing_mode_live. cbv zeta.
  destruct (truthy_opt (st !! right_dpcode self DPCode.SHAKE)
            || truthy_opt (st !! right_dpcode self DPCode.SWING));
    destruct (truthy_opt (st !! right_dpcode self DPCode.SWITCH_HORIZONTAL));
    destruct (truthy_opt (st !! right_dpcode self DPCode.SWITCH_VERTICAL));
    cbn [andb];
    (split; [solve_in |]);
    repeat split; try reflexivity; try discriminate;
    try (intros (? & ? & ?); discriminate).
Qed.

(** X14.  A swing mode that was set reads back.  When the snapshot
    shows the batch [set_swing_mode] submitted, the getter answers the
    requested mode if it is one of [SWING_ON], [SWING_BOTH],
    [SWING_HORIZONTAL] and [SWING_VERTICAL], and [SWING_OFF] for
    [SWING_OFF] and for every other string. *)
Theorem swing_mode_reads_back (swing_mode' : string) (batch : list Command) :
  set_swing_mode swing_mode' s
  = (Ok tt, {| this := self; sent := sent s ++ [batch] |}) ->
  reflects st batch ->
  swing_mode (with_status st self)
  = if str_in swing_mode'
         [SWING_ON; SWING_BOTH; SWING_HORIZONTAL; SWING_VERTICAL]
    then swing_mode' else SWING_OFF.
Proof.
  unfold set_swing_mode. rewrite bind_get_self. unfold _send_command.
  intros Hrun Hst. injection Hrun as Hrun. apply app_inv_head in Hrun.
  injection Hrun as <-. fold self in Hst.
  rewrite !reflects_cons in Hst. cbn [code value] in Hst.
  destruct Hst as (Hshake & Hswing & Hvertical & Hhorizontal & _).
  rewrite swing_mode_live, Hshake, Hswing, Hvertical, Hhorizontal.
  cbn [truthy_opt truthy]. unfold str_in. cbn [existsb].
  destruct (String.eqb_spec swing_mode' SWING_ON) as [Heq|Hon];
    [rewrite Heq; reflexivity |].
  destruct (String.eqb_spec swing_mode' SWING_BOTH) as [Heq|Hboth];
    [rewrite Heq; reflexivity |].
  destruct (String.eqb_spec swing_mode' SWING_HORIZONTAL) as [Heq|Hh];
    [rewrite Heq; reflexivity |].
  destruct (String.eqb_spec swing_mode' SWING_VERTICAL) as [Heq|Hv];
    [rewrite Heq; reflexivity | reflexivity].
Qed.

(** X15.  A fan mode that was set reads back: when the snapshot shows
    the batch [set_fan_mode] submitted, [fan_mode] answers the requested
    mode.  [set_fan_mode] never raises and asks for no binding. *)
Theorem fan_mode_reads_back (fan_mode' : string) :
  exists batch,
    set_fan_mode fan_mode' s
    = (Ok tt, {| this := self; sent := sent s ++ [batch] |})
    /\ (reflects st batch ->
        fan_mode (with_status st self) = Some (VStr fan_mode')).
Proof.
  unfold set_fan_mode. rewrite bind_get_self. unfold _send_command.
  eexists. split; [reflexivity |]. fold self.
  rewrite reflects_cons. intros [Hfan _]. exact Hfan.
Qed.

(** X16.  A preset that was set reads back.  After [set_preset_mode]
    with [PRESET_ECO] or [PRESET_NONE], the attribute
    [_attr_preset_mode] is the requested preset and, when the snapshot
    shows the batch that was submitted, [preset_mode] answers the
    requested preset. *)
Theorem preset_mode_reads_back (preset : string) :
  preset = PRESET_ECO \/ preset = PRESET_NONE ->
  exists self' batch,
    set_preset_mode preset s
    = (Ok tt, {| this := self'; sent := sent s ++ [batch] |})
    /\ _attr_preset_mode self' = preset
    /\ same_bindings self self'
    /\ (reflects st batch ->
        preset_mode (with_status st self') = Some preset).
Proof.
  intros [-> | ->]; unfold set_preset_mode; rewrite bind_get_self;
    cbn [preset_modes str_in existsb String.eqb orb negb];
    do 2 eexists;
    (split; [reflexivity |]); (split; [reflexivity |]);
    (split; [unfold same_bindings; repeat split |]);
    rewrite reflects_cons; intros [Heco _];
    unfold preset_mode, right_dpcode in *; cbn in Heco |- *;
    now rewrite Heco.
Qed.
End ReadBack.

(** ** The preferred temperature unit *)

Lemma lower_ascii_f (c : ascii) :
  lower_ascii c = "f"%char <-> c = "f"%char \/ c = "F"%char.
Proof.
  destruct c as [[] [] [] [] [] [] [] []]; vm_compute;
    (split; [intros H; first [discriminate H | now left | now right]
            | intros [H | H]; first [discriminate H | reflexivity]]).
Qed.

Lemma index_single (c : ascii) (s : string) :
  is_Some (index 0 (String c "") s) <-> c ∈ list_ascii_of_string s.
Proof.
  induction s as [|b s IH].
  - cbn. split; [intros [? ?]; discriminate | intros H; inversion H].
  - cbn [index list_ascii_of_string String.prefix].
    destruct (ascii_dec c b) as [->|Hne].
    + assert (Hp : String.prefix "" s = true) by now destruct s.
      rewrite Hp. split; [intros _; apply list_elem_of_here | eauto].
    + rewrite elem_of_cons, <- IH.
      destruct (index 0 (String c "") s).
      * split; [eauto | intros _; eauto].
      * split; [intros [? ?]; discriminate |].
        intros [? | [? ?]]; [contradiction | discriminate].
Qed.

Lemma list_ascii_of_lower (s : string) :
  list_ascii_of_string (lower s) = lower_ascii <$> list_ascii_of_string s.
Proof. induction s as [|b s IH]; cbn; [reflexivity | now rewrite IH]. Qed.

(** The test is blind to case: it asks for an [f] or an [F]. *)
Lemma f_in_lower_spec (s : string) :
  f_in_lower s = true
  <-> exists c, c ∈ list_ascii_of_string s
                /\ (c = "f"%char \/ c = "F"%char).
Proof.
  unfold f_in_lower.
  pose proof (index_single "f" (lower s)) as H.
  rewrite list_ascii_of_lower, list_elem_of_fmap in H.
  destruct (index 0 "f" (lower s)) as [n|].
  - split; [intros _ | reflexivity].
    destruct (proj1 H (ltac:(eauto))) as (c & Hc & Hin).
    exists c. split; [exact Hin |]. now apply lower_ascii_f.
  - split; [discriminate |]. intros (c & Hin & Hc).
    destruct (proj2 H) as [? ?]; [| discriminate].
    exists c. split; [| exact Hin]. symmetry. now apply lower_ascii_f.
Qed.

(** X17.  The preferred unit is decided from the snapshot alone.  There
    is none exactly when the snapshot holds neither both data points of
    the current temperature nor both of the target temperature.
    Otherwise it is Fahrenheit exactly when the unit data point or the
    unit-conversion data point holds a string with an [f] in it, in
    either case, and Celsius if not: a value that is not a string does
    not count. *)
Theorem prefered_temperature_unit_cases `{Base : TuyaEntity}
    (dev : TuyaDevice) (instruction_type : string) :
  let dpcode_of := _get_right_dpcode instruction_type in
  let st := status dev in
  let both :=
    (contains st (dpcode_of DPCode.TEMP_CURRENT)
     && contains st (dpcode_of DPCode.TEMP_CURRENT_F))
    || (contains st (dpcode_of DPCode.TEMP_SET)
        && contains st (dpcode_of DPCode.TEMP_SET_F)) in
  let says_fahrenheit :=
    exists dpcode s c,
      dpcode ∈ [dpcode_of DPCode.C_F; dpcode_of DPCode.TEMP_UNIT_CONVERT]
      /\ st !! dpcode = Some (VStr s)
      /\ c ∈ list_ascii_of_string s
      /\ (c = "f"%char \/ c = "F"%char) in
  (prefered_temperature_unit dev instruction_type = None <-> both = false)
  /\ (prefered_temperature_unit dev instruction_type = Some TEMP_FAHRENHEIT
      <-> both = true /\ says_fahrenheit)
  /\ (prefered_temperature_unit dev instruction_type = Some TEMP_CELSIUS
      <-> both = true /\ ~ says_fahrenheit).
Proof.
  cbv zeta. unfold prefered_temperature_unit.
  set (dpcode_of := _get_right_dpcode instruction_type).
  set (both := _ || _).
  set (test := fun dpcode : string =>
                 match status dev !! dpcode with
                 | Some (VStr s) => f_in_lower s
                 | _ => false
                 end).
  assert (Hsays :
            existsb test [dpcode_of DPCode.C_F;
                          dpcode_of DPCode.TEMP_UNIT_CONVERT] = true
            <-> exists dpcode s c,
                  dpcode ∈ [dpcode_of DPCode.C_F;
                            dpcode_of DPCode.TEMP_UNIT_CONVERT]
                  /\ status dev !! dpcode = Some (VStr s)
                  /\ c ∈ list_ascii_of_string s
                  /\ (c = "f"%char \/ c = "F"%char)).
  { rewrite existsb_exists. split.
    - intros (dpcode & Hin & Ht). unfold test in Ht.
      destruct (status dev !! dpcode) as [[| | |s]|] eqn:Hst;
        try discriminate.
      apply f_in_lower_spec in Ht as (c & Hc & Hf).
      exists dpcode, s, c. rewrite list_elem_of_In. auto.
    - intros (dpcode & s & c & Hin & Hst & Hc & Hf).
      exists dpcode. rewrite <- list_elem_of_In. split; [exact Hin |].
      unfold test. rewrite Hst. apply f_in_lower_spec. eauto. }
  destruct both.
  - destruct (existsb test _) eqn:Hex.
    + repeat split; try discriminate; try (intros [_ ?]; tauto).
      now apply Hsays.
    + assert (Hno : ~ (exists dpcode s c,
                         dpcode ∈ [dpcode_of DPCode.C_F;
                                   dpcode_of DPCode.TEMP_UNIT_CONVERT]
                         /\ status dev !! dpcode = Some (VStr s)
                         /\ c ∈ list_ascii_of_string s
                         /\ (c = "f"%char \/ c = "F"%char))).
      { intros H. apply Hsays in H. discriminate H. }
      repeat split; try discriminate; try (intros [_ ?]; tauto); auto.
  - repeat split; try discriminate; try (intros [? _]; discriminate).
Qed.

(** ** Patching the translation table *)

(** X18.  [async_added_to_hass] leaves every translation of the table
    as it is, except those of the vendor values ["0"] and ["1"].  It
    changes the table only for an entity of key [wk] that was created
    with the instruction type ["DP Instructions"] and whose mode enum
    resolves, and then ["0"] translates to [AUTO] and ["1"] to
    [HEAT_COOL]; running it again changes nothing more. *)
Theorem async_added_to_hass_frame `{Base : TuyaEntity}
    (tbl : gmap string HVACMode.t) (self : TuyaClimateEntity) :
  let tbl' := async_added_to_hass tbl self in
  (forall v, v <> "0" -> v <> "1" -> tbl' !! v = tbl !! v)
  /\ (tbl' = tbl
      \/ (tbl' !! "0" = Some HVACMode.AUTO
          /\ tbl' !! "1" = Some HVACMode.HEAT_COOL
          /\ _instruction_type self = "DP Instructions"
          /\ key (entity_description self) = "wk"
          /\ is_Some (find_dpcode_enum (device self)
                        [right_dpcode self DPCode.MODE] true)))
  /\ async_added_to_hass tbl' self = tbl'.
Proof.
  cbv zeta. unfold async_added_to_hass, right_dpcode.
  destruct (find_dpcode_enum (device self) _ true) as [enum_type|];
    [| auto].
  destruct (String.eqb_spec (_instruction_type self) "DP Instructions")
    as [Hit|Hit]; [| auto].
  destruct (String.eqb_spec (key (entity_description self)) "wk")
    as [Hkey|Hkey]; [| auto].
  split; [| split].
  - intros v H0 H1. now rewrite !lookup_insert_ne by congruence.
  - right. rewrite lookup_insert_ne by discriminate.
    rewrite !lookup_insert_eq. eauto 6.
  - apply map_eq. intros v.
    destruct (decide (v = "1")) as [->|H1];
      [now rewrite !lookup_insert_eq |].
    destruct (decide (v = "0")) as [->|H0].
    + rewrite (lookup_insert_ne _ "1") by discriminate.
      rewrite lookup_insert_eq.
      rewrite (lookup_insert_ne _ "1") by discriminate.
      now rewrite lookup_insert_eq.
    + now rewrite !lookup_insert_ne by congruence.
Qed.

(** ** Discovery *)




Section DiscoveryProperties.
Context `{Base : TuyaEntity}.
Variable CONF_INSTRUCTIONS_TYPE : string.
Variable tbl : gmap string HVACMode.t.
Variable device_map : list (string * option TuyaDevice).
Variable entry_data : gmap string string.












End DiscoveryProperties.

(** ** The properties on the example devices *)

Lemma init_celsius_without_preference_witness :
  @prefered_temperature_unit StandardEntity heater "Standard" = None
  /\ _attr_temperature_unit heater_entity = TEMP_CELSIUS
  /\ _current_temperature heater_entity = Some heater_temp_current
  /\ _set_temperature heater_entity = Some heater_temp_set.
Proof.
  split; [reflexivity |].
  destruct (@init_celsius_without_preference StandardEntity TUYA_HVAC_TO_HA
              heater (description_of "qn") "Standard" eq_refl)
    as (Hu & Hc & Hs).
  split; [exact Hu |]. split; [exact Hc | exact Hs].
Defined.

Lemma init_temperature_with_preference_witness :
  @prefered_temperature_unit StandardEntity split_unit "Standard"
  = Some TEMP_FAHRENHEIT
  /\ _current_temperature split_unit_entity
     = Some {| dpcode := "temp_current_f"; min := 32; max := 122;
               scale := 0; step := 1 |}
  /\ _set_temperature split_unit_entity
     = Some {| dpcode := "temp_set_f"; min := 60; max := 88;
               scale := 0; step := 1 |}
  /\ _attr_temperature_unit split_unit_entity = TEMP_FAHRENHEIT.
Proof.
  split; [reflexivity |].
  destruct (@init_temperature_with_preference StandardEntity TUYA_HVAC_TO_HA
              split_unit (description_of "kt") "Standard" TEMP_FAHRENHEIT
              eq_refl)
    as (Hc & Hs & Hu).
  split; [exact Hc |]. split; [exact Hs |].
  apply Hu. split; [eexists; reflexivity | left; reflexivity].
Defined.

Lemma init_swing_modes_never_both_witness :
  _attr_swing_modes split_unit_entity
  = Some [SWING_OFF; SWING_HORIZONTAL; SWING_VERTICAL]
  /\ SWING_BOTH ∉ [SWING_OFF; SWING_HORIZONTAL; SWING_VERTICAL].
Proof.
  split; [reflexivity |].
  destruct (@init_swing_modes_never_both StandardEntity TUYA_HVAC_TO_HA
              split_unit (description_of "kt") "Standard") as [Hlist _].
  apply (Hlist [SWING_OFF; SWING_HORIZONTAL; SWING_VERTICAL] eq_refl).
Defined.

Lemma set_hvac_mode_sends_permitted_value_witness :
  exists batch,
    @set_hvac_mode StandardEntity HVACMode.COOL
      {| this := thermostat_entity; sent := [] |}
    = (Ok tt, {| this := thermostat_entity; sent := [batch] |})
    /\ forall c, c ∈ tail batch ->
         exists v, value c = VStr v /\ v ∈ range thermostat_mode.
Proof.
  destruct (@set_hvac_mode_sends_permitted_value StandardEntity
              TUYA_HVAC_TO_HA thermostat (description_of "wk") "Standard"
              [] HVACMode.COOL) as (batch & Hrun & Hperm & _).
  exists batch. split; [exact Hrun |].
  intros c Hc. destruct (Hperm c Hc) as (_ & enum_type & v & Hm & Hv & Hin & _).
  exists v. split; [exact Hv |].
  assert (Hfound : Some enum_type = Some thermostat_mode)
    by (rewrite <- Hm; reflexivity).
  injection Hfound as ->. exact Hin.
Defined.

Lemma hvac_mode_reads_back_witness :
  let batch := [ {| code := "switch"; value := VBool true |};
                 {| code := "mode"; value := VStr "freeze" |} ] in
  let st : gmap string Value :=
    <["switch" := VBool true]> (<["mode" := VStr "freeze"]> ∅) in
  @set_hvac_mode StandardEntity HVACMode.COOL
    {| this := thermostat_entity; sent := [] |}
  = (Ok tt, {| this := thermostat_entity; sent := [batch] |})
  /\ reflects st batch
  /\ @hvac_mode StandardEntity TUYA_HVAC_TO_HA
       (with_status st thermostat_entity) = HVACMode.COOL.
Proof.
  cbv zeta.
  assert (Hst : reflects
                  (<["switch" := VBool true]> (<["mode" := VStr "freeze"]> ∅))
                  [ {| code := "switch"; value := VBool true |};
                    {| code := "mode"; value := VStr "freeze" |} ]).
  { repeat constructor. }
  split; [reflexivity |]. split; [exact Hst |].
  apply (@hvac_mode_reads_back StandardEntity TUYA_HVAC_TO_HA thermostat
           (description_of "wk") "Standard" [] HVACMode.COOL _ _
           eq_refl Hst).
  right. split; [eexists; reflexivity | reflexivity].
Defined.

Lemma hvac_mode_is_supported_witness :
  let st : gmap string Value :=
    <["switch" := VBool true]> (<["mode" := VStr "holiday"]> ∅) in
  "holiday" ∈ range thermostat_mode
  /\ @hvac_mode StandardEntity TUYA_HVAC_TO_HA
       (with_status st thermostat_entity)
     ∈ _attr_hvac_modes thermostat_entity.
Proof.
  cbv zeta.
  assert (Hin : "holiday" ∈ range thermostat_mode) by (cbn; solve_in).
  split; [exact Hin |].
  destruct (@hvac_mode_is_supported StandardEntity TUYA_HVAC_TO_HA thermostat
              (description_of "wk") "Standard"
              (<["switch" := VBool true]> (<["mode" := VStr "holiday"]> ∅)))
    as [Hmode _].
  exact (Hmode thermostat_mode "holiday" eq_refl eq_refl eq_refl Hin).
Defined.

Lemma turn_on_effect_witness :
  contains (function heater) "switch" = true
  /\ @turn_on StandardEntity {| this := heater_entity; sent := [] |}
     = (Ok tt,
        {| this := heater_entity;
           sent := [[ {| code := "switch"; value := VBool true |} ]] |}).
Proof.
  split; [reflexivity |].
  destruct (@turn_on_effect StandardEntity
              {| this := heater_entity; sent := [] |})
    as (out & Hrun & _ & _ & Hdecl & _).
  rewrite Hrun, (Hdecl eq_refl). reflexivity.
Defined.

Lemma turn_off_effect_witness :
  contains (function bare_heater) "switch" = false
  /\ (HVACMode.OFF ∉ _attr_hvac_modes bare_heater_entity)
  /\ @turn_off StandardEntity {| this := bare_heater_entity; sent := [] |}
     = (Ok tt, {| this := bare_heater_entity; sent := [] |}).
Proof.
  assert (Hoff : HVACMode.OFF ∉ _attr_hvac_modes bare_heater_entity)
    by (intros H; inversion H).
  split; [reflexivity |]. split; [exact Hoff |].
  destruct (@turn_off_effect StandardEntity
              {| this := bare_heater_entity; sent := [] |})
    as (out & Hrun & _ & _ & _ & Hnone).
  rewrite Hrun. rewrite (proj2 Hnone (conj eq_refl Hoff)). reflexivity.
Defined.

Lemma swing_mode_table_witness :
  let st : gmap string Value :=
    <["shake" := VBool true]> (<["switch_horizontal" := VBool true]> ∅) in
  @swing_mode StandardEntity (with_status st split_unit_entity) = SWING_ON.
Proof.
  cbv zeta.
  apply (@swing_mode_table StandardEntity
           {| this := split_unit_entity; sent := [] |}
           (<["shake" := VBool true]>
            (<["switch_horizontal" := VBool true]> ∅))).
  reflexivity.
Defined.

Lemma swing_mode_reads_back_witness :
  let batch := [ {| code := "shake"; value := VBool false |};
                 {| code := "swing"; value := VBool false |};
                 {| code := "switch_vertical"; value := VBool true |};
                 {| code := "switch_horizontal"; value := VBool true |} ] in
  let st : gmap string Value :=
    <["shake" := VBool false]>
    (<["swing" := VBool false]>
    (<["switch_vertical" := VBool true]>
    (<["switch_horizontal" := VBool true]> ∅))) in
  @set_swing_mode StandardEntity SWING_BOTH
    {| this := split_unit_entity; sent := [] |}
  = (Ok tt, {| this := split_unit_entity; sent := [batch] |})
  /\ reflects st batch
  /\ @swing_mode StandardEntity (with_status st split_unit_entity)
     = SWING_BOTH.
Proof.
  cbv zeta.
  assert (Hst : reflects
                  (<["shake" := VBool false]>
                   (<["swing" := VBool false]>
                   (<["switch_vertical" := VBool true]>
                   (<["switch_horizontal" := VBool true]> ∅))))
                  [ {| code := "shake"; value := VBool false |};
                    {| code := "swing"; value := VBool false |};
                    {| code := "switch_vertical"; value := VBool true |};
                    {| code := "switch_horizontal"; value := VBool true |} ]).
  { repeat constructor. }
  split; [reflexivity |]. split; [exact Hst |].
  exact (@swing_mode_reads_back StandardEntity
           {| this := split_unit_entity; sent := [] |} _ SWING_BOTH _
           eq_refl Hst).
Defined.

Lemma fan_mode_reads_back_witness :
  let st : gmap string Value := <["fan_speed_enum" := VStr "high"]> ∅ in
  @fan_mode StandardEntity (with_status st split_unit_entity)
  = Some (VStr "high").
Proof.
  cbv zeta.
  destruct (@fan_mode_reads_back StandardEntity
              {| this := split_unit_entity; sent := [] |}
              (<["fan_speed_enum" := VStr "high"]> ∅) "high")
    as (batch & Hrun & Hread).
  apply Hread. unfold set_fan_mode in Hrun.
  rewrite bind_get_self in Hrun. unfold _send_command in Hrun.
  cbn [this sent app] in Hrun. inversion Hrun. repeat constructor.
Defined.

Lemma preset_mode_reads_back_witness :
  exists self',
    @set_preset_mode StandardEntity PRESET_ECO
      {| this := thermostat_entity; sent := [] |}
    = (Ok tt,
       {| this := self';
          sent := [[ {| code := "eco"; value := VBool true |} ]] |})
    /\ _attr_preset_mode self' = PRESET_ECO
    /\ @preset_mode StandardEntity
         (with_status (<["eco" := VBool true]> ∅) self')
       = Some PRESET_ECO.
Proof.
  destruct (@preset_mode_reads_back StandardEntity
              {| this := thermostat_entity; sent := [] |}
              (<["eco" := VBool true]> ∅) PRESET_ECO (or_introl eq_refl))
    as (self' & batch & Hrun & Hattr & _ & Hread).
  exists self'. rewrite Hrun.
  assert (Hb : batch = [ {| code := "eco"; value := VBool true |} ]).
  { unfold set_preset_mode in Hrun. rewrite bind_get_self in Hrun.
    cbn in Hrun. now inversion Hrun. }
  subst batch. split; [reflexivity |]. split; [exact Hattr |].
  apply Hread. repeat constructor.
Defined.

Lemma prefered_temperature_unit_cases_witness :
  status split_unit !! "c_f" = Some (VStr "F")
  /\ @prefered_temperature_unit StandardEntity split_unit "Standard"
     = Some TEMP_FAHRENHEIT.
Proof.
  split; [reflexivity |].
  apply (@prefered_temperature_unit_cases StandardEntity split_unit
           "Standard").
  split; [reflexivity |].
  exists "c_f", "F", "F"%char.
  split; [solve_in |]. split; [reflexivity |].
  split; [cbn; solve_in | now right].
Defined.

Lemma async_added_to_hass_frame_witness :
  "cold" <> "0" /\ "cold" <> "1"
  /\ @async_added_to_hass RenamingEntity TUYA_HVAC_TO_HA
       air_conditioner_entity !! "cold"
     = Some HVACMode.COOL.
Proof.
  split; [discriminate |]. split; [discriminate |].
  destruct (@async_added_to_hass_frame RenamingEntity TUYA_HVAC_TO_HA
              air_conditioner_entity) as (Hframe & _).
  rewrite Hframe by discriminate. reflexivity.
Defined.



(** ** What the getters answer for a value that is there *)

(** X21.  With a binding whose scale is not negative and a value in the
    snapshot, a getter answers as follows.  For an integer raw value, a
    boolean counting as 0 or 1, a temperature getter returns a float and
    a humidity getter an integer, or the getter raises [OverflowError],
    as it does when the raw value is beyond the range of the floats; it
    raises nothing else.  For a string raw value every getter raises
    [TypeError]. *)
Theorem getter_of_present_value (p : LogicalProperty)
    (self : TuyaClimateEntity) (t : IntegerTypeData) (raw : Value) :
  binding p self = Some t ->
  status (device self) !! dpcode t = Some raw ->
  0 <= scale t ->
  (is_int raw = true ->
     match p with
     | CurrentTemperature | TargetTemperature =>
         (exists f, getter p self = Ok (Some (VFloat f)))
         \/ getter p self = Raise OverflowError
     | CurrentHumidity | TargetHumidity =>
         (exists z, getter p self = Ok (Some (VInt z)))
         \/ getter p self = Raise OverflowError
     end)
  /\ (forall s, raw = VStr s -> getter p self = Raise TypeError).
Proof.
  intros Hb Hraw Hscale. split.
  - intros Hint.
    pose proof (scale_value_int_cases t raw Hint Hscale) as Hsv.
    destruct p; cbn [getter binding] in *.
    + unfold current_temperature. rewrite Hb, Hraw.
      destruct (Z.eqb_spec (scale t) 0) as [H0|_]; cbn [andb].
      * destruct (negb (step t =? 1)).
        -- destruct (truediv_int_cases raw 10 Hint ltac:(discriminate))
             as [(f & z & Hf & _)|Hf];
             change (base_value t) with (VInt 10); rewrite Hf;
             [| now right].
           rewrite Result_bind_Ok, (scale_value_scale0 t _ H0).
           rewrite truediv_float_one. left. eauto.
        -- rewrite Result_bind_Ok.
           destruct Hsv as [(f & z & -> & _)| ->]; [left; eauto | now right].
      * rewrite Result_bind_Ok.
        destruct Hsv as [(f & z & -> & _)| ->]; [left; eauto | now right].
    + unfold target_temperature. rewrite Hb, Hraw.
      destruct Hsv as [(f & z & -> & _)| ->]; [left; eauto | now right].
    + unfold current_humidity. rewrite Hb, Hraw.
      destruct Hsv as [(f & z & -> & Hz)| ->]; [left | now right].
      rewrite Result_bind_Ok. cbn [py_round]. rewrite Hz. eauto.
    + unfold target_humidity. rewrite Hb, Hraw.
      destruct Hsv as [(f & z & -> & Hz)| ->]; [left | now right].
      rewrite Result_bind_Ok. cbn [py_round]. rewrite Hz. eauto.
  - intros s ->.
    destruct p; cbn [getter binding] in *;
      [unfold current_temperature | unfold target_temperature
       | unfold current_humidity | unfold target_humidity];
      rewrite Hb, Hraw; rewrite ?(scale_value_string t s Hscale);
      [| reflexivity ..].
    destruct ((scale t =? 0) && negb (step t =? 1)); [reflexivity |].
    now rewrite Result_bind_Ok, (scale_value_string t s Hscale).
Qed.

Lemma getter_of_present_value_witness :
  let huge := with_status (<["temp_current" := VInt (10 ^ 400)]> ∅)
                heater_entity in
  binding CurrentTemperature heater_entity = Some heater_temp_current
  /\ status (device heater_entity) !! dpcode heater_temp_current
     = Some (VInt 250)
  /\ 0 <= scale heater_temp_current
  /\ (exists f, getter CurrentTemperature heater_entity
                = Ok (Some (VFloat f)))
  /\ getter CurrentTemperature huge = Raise OverflowError
  /\ getter CurrentTemperature
       (with_status (<["temp_current" := VStr "25"]> ∅) heater_entity)
     = Raise TypeError.
Proof.
  cbv zeta.
  assert (Hscale : 0 <= scale heater_temp_current) by (cbn; lia).
  split; [reflexivity |]. split; [reflexivity |]. split; [exact Hscale |].
  split; [| split].
  - destruct (getter_of_present_value CurrentTemperature heater_entity
                heater_temp_current (VInt 250) eq_refl eq_refl Hscale)
      as [Hnum _].
    destruct (Hnum eq_refl) as [Hfloat|Hraise]; [exact Hfloat |].
    exfalso. vm_compute in Hraise. discriminate Hraise.
  - assert (Hraw : status (device (with_status
                                     (<["temp_current" := VInt (10 ^ 400)]> ∅)
                                     heater_entity))
                     !! dpcode heater_temp_current = Some (VInt (10 ^ 400)))
      by reflexivity.
    destruct (getter_of_present_value CurrentTemperature
                (with_status (<["temp_current" := VInt (10 ^ 400)]> ∅)
                   heater_entity)
                heater_temp_current (VInt (10 ^ 400)) eq_refl Hraw Hscale)
      as [Hnum _].
    destruct (Hnum eq_refl) as [[f Hfloat]|Hraise]; [| exact Hraise].
    exfalso. vm_compute in Hfloat. discriminate Hfloat.
  - assert (Hraw : status (device (with_status
                                     (<["temp_current" := VStr "25"]> ∅)
                                     heater_entity))
                     !! dpcode heater_temp_current = Some (VStr "25"))
      by reflexivity.
    destruct (getter_of_present_value CurrentTemperature
                (with_status (<["temp_current" := VStr "25"]> ∅)
                   heater_entity)
                heater_temp_current (VStr "25") eq_refl Hraw Hscale)
      as [_ Hstr].
    exact (Hstr "25" eq_refl).
Defined.

(** X24.  Outside the scale-0 convention, that is with a scale other
    than 0 or with a step of 1, the current-temperature getter scales
    the raw value as it is: it does not divide by the base constant. *)
Theorem current_temperature_without_quirk (self : TuyaClimateEntity)
    (t : IntegerTypeData) (raw : Value) :
  _current_temperature self = Some t ->
  status (device self) !! dpcode t = Some raw ->
  scale t <> 0 \/ step t = 1 ->
  current_temperature self = (v ← scale_value t raw; Ok (Some v)).
Proof.
  intros Hb Hraw Hcase. unfold current_temperature. rewrite Hb, Hraw.
  assert (Hq : (scale t =? 0) && negb (step t =? 1) = false).
  { destruct Hcase as [Hscale|Hstep].
    - now apply Z.eqb_neq in Hscale as ->.
    - rewrite Hstep. apply andb_false_r. }
  now rewrite Hq.
Qed.

Lemma current_temperature_without_quirk_witness :
  let t := {| dpcode := "temp_current_f"; min := 32; max := 122;
              scale := 0; step := 1 |} in
  _current_temperature split_unit_entity = Some t
  /\ status (device split_unit_entity) !! dpcode t = Some (VInt 75)
  /\ step t = 1
  /\ current_temperature split_unit_entity
     = Ok (Some (VFloat (float_of_Z 75))).
Proof.
  cbv zeta.
  assert (Hb : _current_temperature split_unit_entity
               = Some {| dpcode := "temp_current_f"; min := 32; max := 122;
                         scale := 0; step := 1 |}) by reflexivity.
  assert (Hraw : status (device split_unit_entity) !! "temp_current_f"
                 = Some (VInt 75)) by reflexivity.
  split; [exact Hb |]. split; [exact Hraw |]. split; [reflexivity |].
  rewrite (current_temperature_without_quirk split_unit_entity _ (VInt 75)
             Hb Hraw (or_intror eq_refl)).
  reflexivity.
Defined.

(** ** The table is shared *)

(** X22.  The table [async_added_to_hass] patches is the table every
    entity reads.  Once an entity of key [wk] with the instruction type
    ["DP Instructions"] and a resolving mode enum was added, any entity
    whose mode data point is declared writable and whose switch is not
    off reads the vendor value ["1"] as [HEAT_COOL] and ["0"] as
    [AUTO], whatever its own category and instruction type are. *)
Theorem patched_table_read_by_every_entity `{Base : TuyaEntity}
    (tbl : gmap string HVACMode.t) (added other : TuyaClimateEntity)
    (v : string) :
  _instruction_type added = "DP Instructions" ->
  key (entity_description added) = "wk" ->
  is_Some (find_dpcode_enum (device added)
             [right_dpcode added DPCode.MODE] true) ->
  truthy (default (VBool true)
            (status (device other) !! right_dpcode other DPCode.SWITCH))
  = true ->
  contains (function (device other)) (right_dpcode other DPCode.MODE) = true ->
  status (device other) !! right_dpcode other DPCode.MODE = Some (VStr v) ->
  (v = "0" -> hvac_mode (async_added_to_hass tbl added) other = HVACMode.AUTO)
  /\ (v = "1" ->
      hvac_mode (async_added_to_hass tbl added) other = HVACMode.HEAT_COOL).
Proof.
  intros Hit Hkey [enum_type Henum] Hswitch Hdecl Hmode.
  assert (Htbl : async_added_to_hass tbl added
                 = <["1" := HVACMode.HEAT_COOL]>
                     (<["0" := HVACMode.AUTO]> tbl)).
  { unfold async_added_to_hass. unfold right_dpcode in Henum.
    now rewrite Henum, Hit, Hkey. }
  rewrite Htbl. split; intros ->.
  - apply hvac_mode_translated; [exact Hswitch | exact Hdecl |].
    rewrite Hmode. cbn [translate].
    rewrite lookup_insert_ne by discriminate. apply lookup_insert_eq.
  - apply hvac_mode_translated; [exact Hswitch | exact Hdecl |].
    rewrite Hmode. cbn [translate]. apply lookup_insert_eq.
Qed.

Lemma patched_table_read_by_every_entity_witness :
  let other :=
    with_status (<["switch" := VBool true]> (<["mode" := VStr "1"]> ∅))
      thermostat_entity in
  _instruction_type dp_thermostat_entity = "DP Instructions"
  /\ key (entity_description dp_thermostat_entity) = "wk"
  /\ @hvac_mode RenamingEntity
       (@async_added_to_hass RenamingEntity TUYA_HVAC_TO_HA
          dp_thermostat_entity) other
     = HVACMode.HEAT_COOL
  /\ @hvac_mode RenamingEntity
       (@async_added_to_hass RenamingEntity TUYA_HVAC_TO_HA
          dp_thermostat_entity)
       (with_status (<["switch" := VBool true]> (<["mode" := VStr "0"]> ∅))
          thermostat_entity)
     = HVACMode.AUTO.
Proof.
  cbv zeta. split; [reflexivity |]. split; [reflexivity |]. split.
  - apply (@patched_table_read_by_every_entity RenamingEntity
             TUYA_HVAC_TO_HA dp_thermostat_entity
             (with_status (<["switch" := VBool true]>
                           (<["mode" := VStr "1"]> ∅)) thermostat_entity)
             "1"); try reflexivity.
    eexists; reflexivity.
  - apply (@patched_table_read_by_every_entity RenamingEntity
             TUYA_HVAC_TO_HA dp_thermostat_entity
             (with_status (<["switch" := VBool true]>
                           (<["mode" := VStr "0"]> ∅)) thermostat_entity)
             "0"); try reflexivity.
    eexists; reflexivity.
Defined.

(** ** The supported modes and the patched table *)

Section PatchedTable.
Context `{Base : TuyaEntity}.
Variable tbl : gmap string HVACMode.t.
Variable dev : TuyaDevice.
Variable description : TuyaClimateEntityDescription.

Let self := __init__ tbl dev description "DP Instructions".
Let dpcode_of := _get_right_dpcode "DP Instructions".

(** X23.  The supported modes are computed once, at construction, from
    the table as it was then; [async_added_to_hass] patches the table
    afterwards and [hvac_mode] reads the patched one.  So an entity of
    key [wk] with the instruction type ["DP Instructions"] and a
    resolving mode enum, none of whose permitted values translated to
    [AUTO] at construction and whose fallback mode is not [AUTO], reports
    the mode [AUTO] for the vendor value ["0"] once it was added, and
    [AUTO] is not among its supported modes. *)
Theorem hvac_mode_unsupported_after_patch (enum_type : EnumTypeData)
    (st : gmap string Value) :
  key description = "wk" ->
  find_dpcode_enum dev [dpcode_of DPCode.MODE] true = Some enum_type ->
  (forall v, v ∈ range enum_type -> tbl !! v <> Some HVACMode.AUTO) ->
  switch_only_hvac_mode description <> HVACMode.AUTO ->
  truthy (default (VBool true) (st !! dpcode_of DPCode.SWITCH)) = true ->
  contains (function dev) (dpcode_of DPCode.MODE) = true ->
  st !! dpcode_of DPCode.MODE = Some (VStr "0") ->
  hvac_mode (async_added_to_hass tbl self) (with_status st self)
  = HVACMode.AUTO
  /\ (HVACMode.AUTO ∉ _attr_hvac_modes self)
  /\ _attr_hvac_modes (with_status st self) = _attr_hvac_modes self.
Proof.
  intros Hkey Henum Hrange Hfallback Hswitch Hdecl Hmode.
  destruct (init_attributes tbl dev description "DP Instructions")
    as ((Hdev & Hdescr & Hit & _) & _).
  fold self in Hdev, Hdescr, Hit.
  assert (Hright : right_dpcode self = dpcode_of).
  { unfold right_dpcode. now rewrite Hit. }
  assert (Htbl : async_added_to_hass tbl self
                 = <["1" := HVACMode.HEAT_COOL]>
                     (<["0" := HVACMode.AUTO]> tbl)).
  { unfold async_added_to_hass. rewrite Hit, Hdev, Hdescr, Hkey.
    fold dpcode_of. now rewrite Henum. }
  split; [| split; [| reflexivity]].
  - rewrite hvac_mode_live, Hright, Hdev, Hswitch, Hdecl, Hmode, Htbl.
    cbn [negb translate].
    rewrite lookup_insert_ne by discriminate.
    now rewrite lookup_insert_eq.
  - destruct (init_hvac_attributes_resolved tbl dev description
                "DP Instructions" enum_type Henum) as (_ & Hmodes & _).
    fold self in Hmodes. rewrite Hmodes. clear Hmodes.
    rewrite !elem_of_app. intros [Hin|[Hin|Hin]].
    + apply list_elem_of_singleton in Hin. discriminate Hin.
    + apply list_elem_of_omap in Hin as (v & Hv & Htr).
      exact (Hrange v Hv Htr).
    + destruct (bool_decide _) in Hin; [inversion Hin |].
      apply list_elem_of_singleton in Hin. congruence.
Qed.
End PatchedTable.

Lemma hvac_mode_unsupported_after_patch_witness :
  let st : gmap string Value :=
    <["Power" := VBool true]> (<["Mode" := VStr "0"]> ∅) in
  _attr_hvac_modes dp_thermostat_entity = [HVACMode.OFF; HVACMode.HEAT_COOL]
  /\ @hvac_mode RenamingEntity
       (@async_added_to_hass RenamingEntity TUYA_HVAC_TO_HA
          dp_thermostat_entity)
       (with_status st dp_thermostat_entity)
     = HVACMode.AUTO
  /\ (HVACMode.AUTO ∉ _attr_hvac_modes dp_thermostat_entity).
Proof.
  cbv zeta. split; [reflexivity |].
  assert (Hrange : forall v, v ∈ ["0"; "1"] ->
                     TUYA_HVAC_TO_HA !! v <> Some HVACMode.AUTO).
  { intros v Hin.
    repeat (apply elem_of_cons in Hin as [->|Hin]; [discriminate |]).
    inversion Hin. }
  assert (Hfallback : switch_only_hvac_mode (description_of "wk")
                      <> HVACMode.AUTO) by discriminate.
  assert (Hswitch :
            truthy (default (VBool true)
                      ((<["Power" := VBool true]> (<["Mode" := VStr "0"]> ∅)
                        : gmap string Value)
                       !! @_get_right_dpcode RenamingEntity "DP Instructions"
                            DPCode.SWITCH))
            = true) by reflexivity.
  assert (Hvalue :
            (<["Power" := VBool true]> (<["Mode" := VStr "0"]> ∅)
             : gmap string Value)
            !! @_get_right_dpcode RenamingEntity "DP Instructions" DPCode.MODE
            = Some (VStr "0")) by reflexivity.
  assert (Hdecl :
            contains (function dp_thermostat)
              (@_get_right_dpcode RenamingEntity "DP Instructions"
                 DPCode.MODE)
            = true) by reflexivity.
  destruct (@hvac_mode_unsupported_after_patch RenamingEntity
              TUYA_HVAC_TO_HA dp_thermostat (description_of "wk")
              {| enum_dpcode := "Mode"; range := ["0"; "1"] |}
              (<["Power" := VBool true]> (<["Mode" := VStr "0"]> ∅))
              eq_refl eq_refl Hrange Hfallback Hswitch Hdecl Hvalue)
    as (Hmode & Hnot & _).
  split; [exact Hmode | exact Hnot].
Defined.
